(** * The in-process tracing engine of ddtrace: trace aggregator, tracer, gevent provider

    A shallow embedding of [ddtrace/tracer.py] ([_Trace] and [Tracer]), of
    [ddtrace/contrib/gevent/provider.py] ([GeventContextProvider]) and of
    [ddtrace/contrib/starlette/patch.py].

    Python objects that are shared and mutated through references (the spans
    held at once by a trace's [_spans] list, by the context provider and by the
    caller) live in an object store; a reference is the object's identity.
    Methods are state transformers that either return or raise. *)

From stdpp Require Import gmap strings list fin_maps.
From Stdlib Require Import ZArith QArith.QArith_base Lia.

Local Open Scope Z_scope.

(** ** Python values and control *)

(** Identity of a [Span] object. *)
Abbreviation ref := nat (only parsing).

(** A number stored in [Span.metrics]. *)
Inductive number :=
| Int (z : Z)
| Float (q : Q).

(** The exceptions the modelled code can raise. *)
Inductive exn :=
| IndexError
| TypeError
| KeyError.

(** A call either returns a value or raises; both leave a state behind
    (mutations made before a [raise] persist). *)
Inductive result (S A : Type) : Type :=
| Ok (a : A) (s : S)
| Raise (e : exn) (s : S).
Arguments Ok {S A} a s.
Arguments Raise {S A} e s.

Definition M (S A : Type) : Type := S -> result S A.

Definition ret {S A} (a : A) : M S A := fun s => Ok a s.

Definition bind {S A B} (m : M S A) (k : A -> M S B) : M S B :=
  fun s => match m s with
           | Ok a s' => k a s'
           | Raise e s' => Raise e s'
           end.

Definition raise {S A} (e : exn) : M S A := fun s => Raise e s.

Definition get {S} : M S S := fun s => Ok s s.

Definition modify {S} (f : S -> S) : M S unit := fun s => Ok tt (f s).

Notation "x <- m ;; k" := (bind m (fun x => k))
  (at level 100, m at next level, right associativity).
Notation "m ;; k" := (bind m (fun _ => k))
  (at level 100, right associativity).

(** [for x in xs: body]. *)
Fixpoint for_ {S A} (xs : list A) (body : A -> M S unit) : M S unit :=
  match xs with
  | [] => ret tt
  | x :: xs' => body x ;; for_ xs' body
  end.

(** The state a call leaves behind, returned or raised. *)
Definition state_of {S A} (r : result S A) : S :=
  match r with
  | Ok _ s => s
  | Raise _ s => s
  end.

Definition raises {S A} (r : result S A) : bool :=
  match r with
  | Ok _ _ => false
  | Raise _ _ => true
  end.

(** The call returns, with a value and a final state that satisfy [Q]. *)
Definition returns {S A} (m : M S A) (s : S) (Q : A -> S -> Prop) : Prop :=
  match m s with
  | Ok a s' => Q a s'
  | Raise _ _ => False
  end.

(** Truth value of an [Optional[str]]: [None] and the empty string are false. *)
Definition truthy_str (o : option string) : bool :=
  match o with
  | Some s => negb (String.eqb s "")
  | None => false
  end.

(** Truth value of an [Optional[int]]: [None] and [0] are false. *)
Definition truthy_int (o : option Z) : bool :=
  match o with
  | Some z => negb (z =? 0)
  | None => false
  end.

(** ** Constants ([ddtrace/constants.py], [ddtrace/ext/priority.py], [ddtrace/ext/system.py]) *)

Definition SAMPLING_PRIORITY_KEY : string := "_sampling_priority_v1".
Definition SAMPLE_RATE_METRIC_KEY : string := "_sample_rate".
Definition ORIGIN_KEY : string := "_dd.origin".
Definition VERSION_KEY : string := "version".
Definition ENV_KEY : string := "env".
Definition HOSTNAME_KEY : string := "_dd.hostname".
Definition PID : string := "system.pid".
Definition AUTO_REJECT : Z := 0.
Definition AUTO_KEEP : Z := 1.

(** Module-level settings of [tracer.py], read from the environment at import. *)
Class ModuleGlobals := {
  partial_flush_enabled : bool;
  partial_flush_min_spans : Z
}.

(** The values the environment gives when nothing is set. *)
Definition default_globals : ModuleGlobals :=
  {| partial_flush_enabled := true; partial_flush_min_spans := 500 |}.

(** ** Span *)

Module Span.

(** Modelled from the spec: the [Span] class ([ddtrace/span.py]) is not among the
    sources; these are the attributes [tracer.py] reads and writes. *)
Record t := mk {
  name : string;
  service : option string;
  resource : option string;
  span_type : option string;
  trace_id : Z;
  span_id : Z;
  parent_id : option Z;
  meta : gmap string string;
  metrics : gmap string number;
  finished : bool;
  _parent : option ref
}.

(** [span.meta[k] = v], also what [_set_str_tag] does. *)
Definition set_meta (k v : string) (s : t) : t :=
  mk (name s) (service s) (resource s) (span_type s) (trace_id s) (span_id s)
     (parent_id s) (<[k := v]> (meta s)) (metrics s) (finished s) (_parent s).

(** Modelled from the spec: [set_metric(key, float)] stores the number under the key. *)
Definition set_metric (k : string) (v : number) (s : t) : t :=
  mk (name s) (service s) (resource s) (span_type s) (trace_id s) (span_id s)
     (parent_id s) (meta s) (<[k := v]> (metrics s)) (finished s) (_parent s).

(** Modelled from the spec: [set_tags(tags)] sets every string tag of the dict. *)
Definition set_tags (tags : gmap string string) (s : t) : t :=
  mk (name s) (service s) (resource s) (span_type s) (trace_id s) (span_id s)
     (parent_id s) (tags ∪ meta s) (metrics s) (finished s) (_parent s).

Definition set_finished (b : bool) (s : t) : t :=
  mk (name s) (service s) (resource s) (span_type s) (trace_id s) (span_id s)
     (parent_id s) (meta s) (metrics s) b (_parent s).

Definition set_parent (p : option ref) (s : t) : t :=
  mk (name s) (service s) (resource s) (span_type s) (trace_id s) (span_id s)
     (parent_id s) (meta s) (metrics s) (finished s) p.

End Span.

(** The object store: every live [Span], by identity. *)
Abbreviation heap := (gmap nat Span.t) (only parsing).

(** [s.finished] read through a reference. *)
Definition is_finished (h : heap) (r : ref) : bool :=
  from_option Span.finished false (h !! r).

(** ** _Trace *)

Module _Trace.

Record t := mk {
  trace_id : option Z;
  sampled : bool;
  sampling_priority : option Z;
  dd_origin : option string;
  _num_finished : Z;
  _spans : list ref;
  (** The instance attribute [spans]: not declared by the class, it exists
      only once something assigns it. *)
  spans : option (list ref)
}.

(** [_Trace(trace_id=..., sampling_priority=..., dd_origin=...)] with the
    declared defaults for the rest. *)
Definition new (trace_id : option Z) (sampling_priority : option Z)
    (dd_origin : option string) : t :=
  mk trace_id true sampling_priority dd_origin 0 [] None.

Definition set_sampled (b : bool) (tr : t) : t :=
  mk (trace_id tr) b (sampling_priority tr) (dd_origin tr) (_num_finished tr)
     (_spans tr) (spans tr).

Definition set_sampling_priority (p : option Z) (tr : t) : t :=
  mk (trace_id tr) (sampled tr) p (dd_origin tr) (_num_finished tr)
     (_spans tr) (spans tr).

Definition set_dd_origin (o : option string) (tr : t) : t :=
  mk (trace_id tr) (sampled tr) (sampling_priority tr) o (_num_finished tr)
     (_spans tr) (spans tr).

Definition set_num_finished (n : Z) (tr : t) : t :=
  mk (trace_id tr) (sampled tr) (sampling_priority tr) (dd_origin tr) n
     (_spans tr) (spans tr).

Definition set_spans_ (l : list ref) (tr : t) : t :=
  mk (trace_id tr) (sampled tr) (sampling_priority tr) (dd_origin tr)
     (_num_finished tr) l (spans tr).

Definition set_spans_attr (l : list ref) (tr : t) : t :=
  mk (trace_id tr) (sampled tr) (sampling_priority tr) (dd_origin tr)
     (_num_finished tr) (_spans tr) (Some l).

(** [__len__]. *)
Definition len (tr : t) : Z := Z.of_nat (length (_spans tr)).

(** [root_span]: the first span of the list, if any. *)
Definition root_span (tr : t) : option ref := head (_spans tr).

Definition add_span (span : ref) (tr : t) : t :=
  set_spans_ (_spans tr ++ [span]) tr.

(** Whether [finish_span], once it has incremented the counter, flushes. *)
Definition flush_triggered `{ModuleGlobals} (tr : t) : bool :=
  (_num_finished tr =? len tr)
  || (partial_flush_enabled && (partial_flush_min_spans <=? _num_finished tr)).

(** The stamping of the chunk root in [finish_span]. *)
Definition stamp_chunk_root (tr : t) (chunk_root : ref) (h : heap) : heap :=
  let h :=
    match sampling_priority tr with
    | Some p =>
        if sampled tr
        then alter (Span.set_metric SAMPLING_PRIORITY_KEY (Int p)) chunk_root h
        else h
    | None => h
    end in
  if truthy_str (dd_origin tr)
  then alter (Span.set_meta ORIGIN_KEY (default "" (dd_origin tr))) chunk_root h
  else h.

(** [finish_span] runs on the trace and on the store (it stamps the chunk
    root); it returns [(finished_spans, sampled, trace_done)].
    [finished_spans[0]] raises [IndexError] on an empty list; a [Span] object
    is true, so [if chunk_root] always holds. *)
Definition finish_span `{ModuleGlobals} : M (t * heap) (list ref * bool * bool) :=
  fun '(tr, h) =>
    let tr := set_num_finished (_num_finished tr + 1) tr in
    if flush_triggered tr then
      let finished_spans := List.filter (is_finished h) (_spans tr) in
      match finished_spans with
      | [] => Raise IndexError (tr, h)
      | chunk_root :: _ =>
          let h := stamp_chunk_root tr chunk_root h in
          let tr := set_spans_ (List.filter (fun s => negb (is_finished h s)) (_spans tr)) tr in
          let tr := set_num_finished (_num_finished tr - Z.of_nat (length finished_spans)) tr in
          Ok (finished_spans, sampled tr, len tr =? 0) (tr, h)
      end
    else Ok ([], false, false) (tr, h).

End _Trace.

(** ** Context and the context providers *)

Module Context.

(** Modelled from the spec: [Context] ([ddtrace/context.py]) is the snapshot
    [(trace_id, span_id, sampling_priority?, dd_origin?)]; every part of
    [Context()] is [None]. *)
Record t := mk {
  trace_id : option Z;
  span_id : option Z;
  sampling_priority : option Z;
  dd_origin : option string
}.

End Context.

(** [Union[Context, Span]]: what can be active in an execution flow. *)
Inductive span_or_ctx :=
| ASpan (span : ref)
| ACtx (ctx : Context.t).

(** The provider interface the tracer calls: [activate(x)] and [active()] over
    the provider's own state; [None] is Python's [None]. *)
Class ContextProvider (P V : Type) := {
  cp_activate : option V -> P -> P * option V;
  cp_active : P -> option V
}.

Module GeventContextProvider.

Definition CONTEXT_ATTR : string := "__datadog_context".

Section provider.
Context {V : Type}.

(** The greenlets of the process: [getcurrent] is what [gevent.getcurrent()]
    returns, [attrs] the attributes set on each greenlet object (an attribute
    may hold [None]). *)
Record t := mk {
  getcurrent : option nat;
  attrs : gmap nat (gmap string (option V))
}.

(** [getattr(g, name, None)]. *)
Definition getattr (g : nat) (name : string) (w : t) : option V :=
  match attrs w !! g with
  | Some a => default None (a !! name)
  | None => None
  end.

(** [setattr(g, name, v)]. *)
Definition setattr (g : nat) (name : string) (v : option V) (w : t) : t :=
  mk (getcurrent w) (<[g := <[name := v]> (default ∅ (attrs w !! g))]> (attrs w)).

Definition _get_current_context (w : t) : option V :=
  match getcurrent w with
  | Some current_g => getattr current_g CONTEXT_ATTR w
  | None => None
  end.

Definition _has_active_context (w : t) : bool :=
  bool_decide (is_Some (_get_current_context w)).

Definition activate (context : option V) (w : t) : t * option V :=
  match getcurrent w with
  | Some current_g => (setattr current_g CONTEXT_ATTR context w, context)
  | None => (w, None)
  end.

Definition active (w : t) : option V :=
  let ctx := _get_current_context w in
  ctx.

(** The scheduler runs another greenlet. *)
Definition switch (g : nat) (w : t) : t := mk (Some g) (attrs w).

(** Any number of activations made by other greenlets, each running in turn. *)
Fixpoint run_others (acts : list (nat * option V)) (w : t) : t :=
  match acts with
  | [] => w
  | (g, x) :: acts' => run_others acts' (activate x (switch g w)).1
  end.

End provider.
Arguments t V : clear implicits.

#[global] Instance provider {V : Type} : ContextProvider (t V) V :=
  {| cp_activate := activate; cp_active := active |}.

End GeventContextProvider.

(** ** Collaborators of the tracer *)

Module Sampler.

(** The class of a primary sampler, as [isinstance] tells them apart. *)
Inductive cls :=
| DatadogSampler
| RateSampler (sample_rate : Q)
| OtherSampler.

(** A sampler object; [sample(span)] may write on the span and returns the
    decision. The samplers ([ddtrace/sampler.py]) are not among the sources:
    their decision is a parameter. *)
Record t := mk {
  class : cls;
  sample : Span.t -> Span.t * bool
}.

Definition is_DatadogSampler (s : t) : bool :=
  match class s with
  | DatadogSampler => true
  | _ => false
  end.

End Sampler.

Module Writer.

(** Modelled from the spec: the writer interface ([ddtrace/internal/writer.py]);
    [write(batch)] enqueues, [recreate()] gives a fresh writer. *)
Record t := mk {
  queue : list (list ref)
}.

Definition write (spans : list ref) (w : t) : t := mk (queue w ++ [spans]).

Definition recreate (w : t) : t := mk [].

End Writer.

Module Config.

(** The attributes of the global [config] object that [tracer.py] reads. *)
Record t := mk {
  service : option string;
  env : option string;
  version : option string;
  report_hostname : bool
}.

End Config.

(** A trace filter's [process_trace(spans)]: the batch it returns ([None]
    counts as an empty batch), or [None] here when it raises. *)
Definition Filter : Type := list ref -> option (list ref).

Definition _INTERNAL_APPLICATION_SPAN_TYPES : list string :=
  ["custom"; "template"; "web"; "worker"]%string.

(** ** Tracer *)

Module Tracer.

Section provider.
Context {P : Type} `{!ContextProvider P span_or_ctx} `{!ModuleGlobals}.

(** The [Tracer] object, together with the part of the process it runs in:
    the object store, what [getpid()] returns, the global [config], the
    number of times the identifier source was seeded, and the values of
    [get_runtime_id()] and [hostname.get_hostname()].

    A [_Trace] object is referenced only from [_traces] (and from a local
    variable while a method runs), so its key stands for its identity. *)
Record t := mk {
  sampler : Sampler.t;
  priority_sampler : option (Span.t -> Span.t * bool);
  _runtime_worker : bool;
  _filters : list Filter;
  _traces : gmap (option Z) _Trace.t;
  tags : gmap string string;
  _services : gset string;
  _pid : Z;
  enabled : bool;
  context_provider : P;
  writer : Writer.t;
  heap_ : gmap nat Span.t;
  getpid : Z;
  config : Config.t;
  rand_seeds : nat;
  get_runtime_id : string;
  get_hostname : string
}.

Definition set_runtime_worker (b : bool) (self : t) : t :=
  mk (sampler self) (priority_sampler self) b (_filters self) (_traces self)
     (tags self) (_services self) (_pid self) (enabled self) (context_provider self)
     (writer self) (heap_ self) (getpid self) (config self) (rand_seeds self)
     (get_runtime_id self) (get_hostname self).

Definition set_traces (m : gmap (option Z) _Trace.t) (self : t) : t :=
  mk (sampler self) (priority_sampler self) (_runtime_worker self) (_filters self) m
     (tags self) (_services self) (_pid self) (enabled self) (context_provider self)
     (writer self) (heap_ self) (getpid self) (config self) (rand_seeds self)
     (get_runtime_id self) (get_hostname self).

Definition set_services (s : gset string) (self : t) : t :=
  mk (sampler self) (priority_sampler self) (_runtime_worker self) (_filters self)
     (_traces self) (tags self) s (_pid self) (enabled self) (context_provider self)
     (writer self) (heap_ self) (getpid self) (config self) (rand_seeds self)
     (get_runtime_id self) (get_hostname self).

Definition set_pid (pid : Z) (self : t) : t :=
  mk (sampler self) (priority_sampler self) (_runtime_worker self) (_filters self)
     (_traces self) (tags self) (_services self) pid (enabled self) (context_provider self)
     (writer self) (heap_ self) (getpid self) (config self) (rand_seeds self)
     (get_runtime_id self) (get_hostname self).

Definition set_context_provider (p : P) (self : t) : t :=
  mk (sampler self) (priority_sampler self) (_runtime_worker self) (_filters self)
     (_traces self) (tags self) (_services self) (_pid self) (enabled self) p
     (writer self) (heap_ self) (getpid self) (config self) (rand_seeds self)
     (get_runtime_id self) (get_hostname self).

Definition set_writer (w : Writer.t) (self : t) : t :=
  mk (sampler self) (priority_sampler self) (_runtime_worker self) (_filters self)
     (_traces self) (tags self) (_services self) (_pid self) (enabled self)
     (context_provider self) w (heap_ self) (getpid self) (config self) (rand_seeds self)
     (get_runtime_id self) (get_hostname self).

Definition set_heap (h : gmap nat Span.t) (self : t) : t :=
  mk (sampler self) (priority_sampler self) (_runtime_worker self) (_filters self)
     (_traces self) (tags self) (_services self) (_pid self) (enabled self)
     (context_provider self) (writer self) h (getpid self) (config self) (rand_seeds self)
     (get_runtime_id self) (get_hostname self).

Definition set_rand_seeds (n : nat) (self : t) : t :=
  mk (sampler self) (priority_sampler self) (_runtime_worker self) (_filters self)
     (_traces self) (tags self) (_services self) (_pid self) (enabled self)
     (context_provider self) (writer self) (heap_ self) (getpid self) (config self) n
     (get_runtime_id self) (get_hostname self).

(** [config] is a global, mutable settings object. *)
Definition set_config (c : Config.t) (self : t) : t :=
  mk (sampler self) (priority_sampler self) (_runtime_worker self) (_filters self)
     (_traces self) (tags self) (_services self) (_pid self) (enabled self)
     (context_provider self) (writer self) (heap_ self) (getpid self) c (rand_seeds self)
     (get_runtime_id self) (get_hostname self).

(** The process forks: the child starts on a copy of the parent's memory and
    [getpid()] returns its own identifier. *)
Definition fork (child_pid : Z) (self : t) : t :=
  mk (sampler self) (priority_sampler self) (_runtime_worker self) (_filters self)
     (_traces self) (tags self) (_services self) (_pid self) (enabled self)
     (context_provider self) (writer self) (heap_ self) child_pid (config self)
     (rand_seeds self) (get_runtime_id self) (get_hostname self).

(** *** Object store *)

(** A new object: its identity differs from that of every live object. *)
Definition alloc (s : Span.t) : M t ref :=
  self <- get ;;
  let r := fresh (dom (heap_ self)) in
  modify (set_heap (<[r := s]> (heap_ self))) ;;
  ret r.

(** A mutation of the object behind a reference. *)
Definition update_span (span : ref) (f : Span.t -> Span.t) : M t unit :=
  modify (fun self => set_heap (alter f span (heap_ self)) self).

(** A mutation of the trace object registered under [key]. *)
Definition update_trace (key : option Z) (f : _Trace.t -> _Trace.t) : M t unit :=
  modify (fun self => set_traces (alter f key (_traces self)) self).

(** A method call on the trace object [trace] that is registered under [key]. *)
Definition call_trace {A} (key : option Z) (trace : _Trace.t)
    (m : M (_Trace.t * gmap nat Span.t) A) : M t A :=
  fun self =>
    match m (trace, heap_ self) with
    | Ok a (trace', h') =>
        Ok a (set_heap h' (set_traces (<[key := trace']> (_traces self)) self))
    | Raise e (trace', h') =>
        Raise e (set_heap h' (set_traces (<[key := trace']> (_traces self)) self))
    end.

(** *** Trace table *)

Definition _get_trace (trace_id : option Z) (self : t) : option _Trace.t :=
  _traces self !! trace_id.

Definition _get_or_create_trace (trace_id : option Z) : M t _Trace.t :=
  self <- get ;;
  match _traces self !! trace_id with
  | Some trace => ret trace
  | None =>
      let trace := _Trace.new trace_id None None in
      modify (set_traces (<[trace_id := trace]> (_traces self))) ;;
      ret trace
  end.

(** *** Active span or context *)

Definition provider_activate (x : option span_or_ctx) : M t unit :=
  modify (fun self =>
    set_context_provider (cp_activate x (context_provider self)).1 self).

Definition active (self : t) : option span_or_ctx :=
  cp_active (context_provider self).

Definition active_trace_id (h : gmap nat Span.t) (a : span_or_ctx) : option Z :=
  match a with
  | ASpan r => Span.trace_id <$> h !! r
  | ACtx c => Context.trace_id c
  end.

Definition active_span_id (h : gmap nat Span.t) (a : span_or_ctx) : option Z :=
  match a with
  | ASpan r => Span.span_id <$> h !! r
  | ACtx c => Context.span_id c
  end.

Definition _active_trace (self : t) : option _Trace.t :=
  match active self with
  | Some a =>
      if truthy_int (active_trace_id (heap_ self) a)
      then _get_trace (active_trace_id (heap_ self) a) self
      else None
  | None => None
  end.

(** [trace.sampled if trace else True]: a trace is false when it is empty
    ([_Trace] defines [__len__]). *)
Definition _is_sampled (span : ref) (self : t) : bool :=
  match _get_trace (Span.trace_id <$> heap_ self !! span) self with
  | Some trace => if _Trace.len trace =? 0 then true else _Trace.sampled trace
  | None => true
  end.

Definition activate (span_or_ctx : span_or_ctx) : M t unit :=
  match span_or_ctx with
  | ACtx ctx =>
      let trace := _Trace.new (Context.trace_id ctx) (Context.sampling_priority ctx)
                     (Context.dd_origin ctx) in
      self <- get ;;
      modify (set_traces (<[_Trace.trace_id trace := trace]> (_traces self)))
  | ASpan _ => ret tt
  end ;;
  provider_activate (Some span_or_ctx).

Definition active_root_span (self : t) : option ref :=
  match _active_trace self with
  | Some trace => if _Trace.len trace =? 0 then None else _Trace.root_span trace
  | None => None
  end.

Definition _is_span_internal (s : Span.t) : bool :=
  negb (truthy_str (Span.span_type s))
  || bool_decide (default ""%string (Span.span_type s) ∈ _INTERNAL_APPLICATION_SPAN_TYPES).

(** *** Handing batches to the writer *)

(** The filter loop of [write]: a filter that raises is skipped, one that
    returns an empty batch ends [write] ([None] here). *)
Fixpoint apply_filters (filters : list Filter) (spans : list ref) : option (list ref) :=
  match filters with
  | [] => Some spans
  | filtr :: filters' =>
      match filtr spans with
      | None => apply_filters filters' spans
      | Some [] => None
      | Some spans' => apply_filters filters' spans'
      end
  end.

Definition write (spans : list ref) : M t unit :=
  self <- get ;;
  match spans with
  | [] => ret tt
  | _ =>
      (* [self.enabled and self.writer]: a writer object is true *)
      if enabled self then
        match apply_filters (_filters self) spans with
        | Some spans => modify (set_writer (Writer.write spans (writer self)))
        | None => ret tt
        end
      else ret tt
  end.

(** *** Finishing a span *)

(** [del self._traces[key]]. *)
Definition del_trace (key : option Z) : M t unit :=
  self <- get ;;
  match _traces self !! key with
  | Some _ => modify (set_traces (delete key (_traces self)))
  | None => raise KeyError
  end.

Definition _finish_span (span : ref) : M t unit :=
  self <- get ;;
  let h := heap_ self in
  let is_active :=
    match active self with
    | Some (ASpan r) => Nat.eqb r span
    | _ => false
    end in
  let parent := h !! span ≫= Span._parent in
  let parent_unfinished :=
    match parent with
    | Some p => negb (is_finished h p)
    | None => false
    end in
  (if is_active && parent_unfinished then provider_activate (ASpan <$> parent)
   else if is_active then provider_activate None
   else ret tt) ;;
  let key := Span.trace_id <$> h !! span in
  trace <- _get_or_create_trace key ;;
  r <- call_trace key trace _Trace.finish_span ;;
  let '(spans, sampled, trace_done) := r in
  (if trace_done then del_trace (_Trace.trace_id trace) else ret tt) ;;
  match spans with
  | [] => ret tt
  | _ => if sampled then write spans else ret tt
  end.

(** *** Fork detection *)

(** [_update_dogstatsd_constant_tags] and the hooks of [start_span] touch the
    statsd client and the hook registry only, which are no part of [t]. *)
Definition _update_dogstatsd_constant_tags : M t unit := ret tt.

Definition _start_runtime_worker : M t unit := modify (set_runtime_worker true).

(** [_rand.seed()]. *)
Definition seed : M t unit :=
  modify (fun self => set_rand_seeds (S (rand_seeds self)) self).

(** [trace_id, trace = x] for [x] a key of [_traces], an [int] or [None]:
    neither can be unpacked. *)
Definition unpack_key (x : option Z) : M t (option Z * _Trace.t) := raise TypeError.

Definition _check_new_process : M t unit :=
  self <- get ;;
  let pid := getpid self in
  if _pid self =? pid then ret tt
  else
    modify (set_pid pid) ;;
    seed ;;
    (* [for trace_id, trace in self._traces]: iterating a dict gives its keys *)
    for_ (map_to_list (_traces self)).*1 (fun x =>
      p <- unpack_key x ;;
      let '(trace_id, trace) := p in
      (* [trace.spans = []] assigns the attribute [spans], not [_spans] *)
      update_trace trace_id (_Trace.set_spans_attr [])) ;;
    modify (set_services ∅) ;;
    (if _runtime_worker self then _start_runtime_worker else ret tt) ;;
    _update_dogstatsd_constant_tags ;;
    self <- get ;;
    modify (set_writer (Writer.recreate (writer self))).

(** *** Starting a span *)

(** The service of a new span: the [service] argument, else the service of
    [parent] when [child_of] is a [Span], else [config.service]. *)
Definition choose_service (service : option string) (parent : option ref)
    (self : t) : option string :=
  match service with
  | Some _ => service
  | None =>
      match parent with
      | Some p => heap_ self !! p ≫= Span.service
      | None => Config.service (config self)
      end
  end.

(** The sampling decision for a root span [s]: the span as the samplers
    leave it, [sampled] and [sampling_priority]. *)
Definition sample_root (self : t) (s : Span.t) : Span.t * bool * option Z :=
  let '(s, sampled) := Sampler.sample (sampler self) s in
  if negb (Sampler.is_DatadogSampler (sampler self)) then
    if sampled then
      let s :=
        match Sampler.class (sampler self) with
        | Sampler.RateSampler sample_rate =>
            Span.set_metric SAMPLE_RATE_METRIC_KEY (Float sample_rate) s
        | _ => s
        end in
      match priority_sampler self with
      | Some priority_sample =>
          let '(s, keep) := priority_sample s in
          (s, sampled, Some (if keep then AUTO_KEEP else AUTO_REJECT))
      | None => (s, sampled, None)
      end
    else
      match priority_sampler self with
      | Some _ => (s, sampled, Some AUTO_REJECT)
      | None => (s, sampled, None)
      end
  else (s, true, Some (if sampled then AUTO_KEEP else AUTO_REJECT)).

(** The branch of [start_span] for a [child_of] with a non-zero [trace_id]. *)
Definition start_child_span (rand : Z * Z) (name : string) (child_of : option span_or_ctx)
    (trace_id : Z) (parent_id : option Z) (parent : option ref)
    (service resource span_type : option string) : M t ref :=
  let s := Span.mk name service resource span_type trace_id rand.2 parent_id ∅ ∅ false None in
  let s := match parent with
           | Some _ => Span.set_parent parent s
           | None => s
           end in
  span <- alloc s ;;
  let key := Some (Span.trace_id s) in
  _get_or_create_trace key ;;
  update_trace key (_Trace.add_span span) ;;
  (* [getattr(child_of, ..., None)]: a [Span] has neither attribute *)
  let sampling_priority :=
    match child_of with
    | Some (ACtx ctx) => Context.sampling_priority ctx
    | _ => None
    end in
  match sampling_priority with
  | Some _ => update_trace key (_Trace.set_sampling_priority sampling_priority)
  | None => ret tt
  end ;;
  let dd_origin :=
    match child_of with
    | Some (ACtx ctx) => Context.dd_origin ctx
    | _ => None
    end in
  match dd_origin with
  | Some _ => update_trace key (_Trace.set_dd_origin dd_origin)
  | None => ret tt
  end ;;
  ret span.

(** The root span as [start_span] builds it before it is sampled:
    [Span(self, name, service=..., resource=..., span_type=...)] with the
    process, runtime, hostname and language tags. *)
Definition new_root_span (rand : Z * Z) (name : string)
    (service resource span_type : option string) (self : t) : Span.t :=
  let s := Span.mk name service resource span_type rand.1 rand.2 None ∅ ∅ false None in
  let s := Span.set_metric PID (Int (if _pid self =? 0 then getpid self else _pid self)) s in
  let s := Span.set_meta "runtime-id" (get_runtime_id self) s in
  let s := if Config.report_hostname (config self)
           then Span.set_meta HOSTNAME_KEY (get_hostname self) s
           else s in
  if _runtime_worker self && _is_span_internal s
  then Span.set_meta "language" "python" s
  else s.

(** The branch of [start_span] for the root span of a new trace. *)
Definition start_root_span (rand : Z * Z) (name : string)
    (service resource span_type : option string) : M t ref :=
  self <- get ;;
  let '(s, sampled, sampling_priority) :=
    sample_root self (new_root_span rand name service resource span_type self) in
  span <- alloc s ;;
  let key := Some (Span.trace_id s) in
  _get_or_create_trace key ;;
  update_trace key (_Trace.set_sampled sampled) ;;
  update_trace key (_Trace.set_sampling_priority sampling_priority) ;;
  update_trace key (_Trace.add_span span) ;;
  ret span.

(** [start_span]; [rand] holds the two values the identifier source gives
    the new [Span] when it needs them (a trace identifier, a span identifier). *)
Definition start_span (rand : Z * Z) (name : string) (child_of : option span_or_ctx)
    (service resource span_type : option string) (activate : bool) : M t ref :=
  _check_new_process ;;
  self <- get ;;
  let trace_id := child_of ≫= active_trace_id (heap_ self) in
  let parent_id := child_of ≫= active_span_id (heap_ self) in
  let parent := match child_of with
                | Some (ASpan p) => Some p
                | _ => None
                end in
  let service := choose_service service parent self in
  span <- (if truthy_int trace_id
           then start_child_span rand name child_of (default 0 trace_id) parent_id parent
                  service resource span_type
           else start_root_span rand name service resource span_type) ;;
  (if activate then provider_activate (Some (ASpan span)) else ret tt) ;;
  (if bool_decide (tags self ≠ ∅)
   then update_span span (Span.set_tags (tags self))
   else ret tt) ;;
  (if truthy_str (Config.env (config self))
   then update_span span (Span.set_meta ENV_KEY (default "" (Config.env (config self))))
   else ret tt) ;;
  (if truthy_str (Config.version (config self)) then
     self <- get ;;
     let version_applies :=
       match active_root_span self with
       | None => bool_decide (service = Config.service (config self))
       | Some root_span =>
           bool_decide (heap_ self !! root_span ≫= Span.service = service)
           && bool_decide (is_Some (heap_ self !! root_span ≫= (fun r => Span.meta r !! VERSION_KEY)))
       end in
     if version_applies
     then update_span span (Span.set_meta VERSION_KEY (default "" (Config.version (config self))))
     else ret tt
   else ret tt) ;;
  self <- get ;;
  (if truthy_str service
      && bool_decide (default "" service ∉ _services self)
      && from_option _is_span_internal false (heap_ self !! span)
   then
     modify (set_services ({[default "" service]} ∪ _services self)) ;;
     _update_dogstatsd_constant_tags
   else ret tt) ;;
  ret span.

(** *** The other entry points *)

(** [active_span] (also [current_span]): the active binding when it is a [Span]. *)
Definition active_span (self : t) : option ref :=
  match active self with
  | Some (ASpan span) => Some span
  | _ => None
  end.

(** [get_call_context]: the active [Context] itself, or a [Context] made
    from the active span and its trace ([trace.x if trace else None]: an
    empty trace is false), or [Context()]. *)
Definition get_call_context (self : t) : Context.t :=
  match active self with
  | Some (ACtx ctx) => ctx
  | Some (ASpan span) =>
      let trace :=
        match _get_trace (Span.trace_id <$> heap_ self !! span) self with
        | Some trace => if _Trace.len trace =? 0 then None else Some trace
        | None => None
        end in
      Context.mk (Span.trace_id <$> heap_ self !! span)
        (Span.span_id <$> heap_ self !! span)
        (trace ≫= _Trace.sampling_priority) (trace ≫= _Trace.dd_origin)
  | None => Context.mk None None None None
  end.

(** [trace]: a span that inherits from the active span or context and
    becomes the active one. *)
Definition trace (rand : Z * Z) (name : string)
    (service resource span_type : option string) : M t ref :=
  self <- get ;;
  start_span rand name (active self) service resource span_type true.

(** [set_tags]: [self.tags.update(tags)]. *)
Definition set_tags (new_tags : gmap string string) : M t unit :=
  modify (fun self =>
    mk (sampler self) (priority_sampler self) (_runtime_worker self) (_filters self)
       (_traces self) (new_tags ∪ tags self) (_services self) (_pid self) (enabled self)
       (context_provider self) (writer self) (heap_ self) (getpid self) (config self)
       (rand_seeds self) (get_runtime_id self) (get_hostname self)).

End provider.
Arguments t P : clear implicits.

End Tracer.

(** Modelled from the spec: [Span.finish] ([ddtrace/span.py] is not among the
    sources) is a no-op on a finished span; otherwise it sets [finished] and
    passes the span to the tracer's [_finish_span]. *)
Definition Span_finish {P : Type} `{!ContextProvider P span_or_ctx} `{!ModuleGlobals}
    (span : ref) : M (Tracer.t P) unit :=
  self <- get ;;
  if is_finished (Tracer.heap_ self) span then ret tt
  else
    Tracer.update_span span (Span.set_finished true) ;;
    Tracer._finish_span span.

(** ** Starlette integration ([ddtrace/contrib/starlette/patch.py]) *)

Module StarlettePatch.

(** The function bound to [Starlette.__init__]: the original, or a [wrapt]
    wrapper that runs [traced_init] around the function it wraps. *)
Inductive func :=
| Starlette_init
| FunctionWrapper (wrapped : func).

(** The [starlette] module as [patch.py] sees it: the attribute
    [_datadog_patch] (absent until something sets it) and the function bound
    to [starlette.applications.Starlette.__init__]. *)
Record t := mk {
  _datadog_patch : option bool;
  init : func
}.

(** [getattr(starlette, "_datadog_patch", False)]. *)
Definition getattr_datadog_patch (m : t) : bool := default false (_datadog_patch m).

(** [setattr(starlette, "_datadog_patch", v)]. *)
Definition setattr_datadog_patch (v : bool) (m : t) : t := mk (Some v) (init m).

(** [_w("starlette.applications", "Starlette.__init__", traced_init)]:
    [wrapt.wrap_function_wrapper] rebinds the name to a wrapper around the
    function bound to it. *)
Definition _w (m : t) : t := mk (_datadog_patch m) (FunctionWrapper (init m)).

Definition patch (m : t) : t :=
  if getattr_datadog_patch m then m
  else _w (setattr_datadog_patch true m).

Section unwrap.
(** [_u] is [ddtrace.utils.wrappers.unwrap], which is not among the sources:
    the function it rebinds the name to is a parameter. *)
Variable unwrap : func -> func.

Definition _u (m : t) : t := mk (_datadog_patch m) (unwrap (init m)).

Definition unpatch (m : t) : t :=
  if getattr_datadog_patch m then m
  else _u (setattr_datadog_patch false m).

End unwrap.

(** A call of [patch()] or of [unpatch()], and a sequence of such calls. *)
Inductive call :=
| Patch
| Unpatch.

Definition run_call (unwrap : func -> func) (c : call) (m : t) : t :=
  match c with
  | Patch => patch m
  | Unpatch => unpatch unwrap m
  end.

Definition run (unwrap : func -> func) (calls : list call) (m : t) : t :=
  foldl (fun m c => run_call unwrap c m) m calls.

(** A [Middleware(cls)] object of a middleware list. *)
Inductive middleware :=
| TraceMiddleware
| UserMiddleware (n : nat).

(** What a caller can pass as [middleware]: a [list] object, or an object
    without an [insert] method ([None], a tuple). *)
Inductive object :=
| PyList (items : list middleware)
| NoInsert.

(** The live objects, by identity: a list passed to [Starlette(...)] is
    shared with the caller. *)
Abbreviation store := (gmap nat object) (only parsing).

Inductive exception :=
| AttributeError
| OtherError (n : nat).

(** A call returns or raises, and leaves a store behind. *)
Inductive outcome :=
| Returned (st : store)
| Raised (e : exception) (st : store).

Section traced_init.
(** [wrapped] is the function the wrapper stands for; [kwargs] maps each
    keyword to the object passed. *)
Variable wrapped : list nat -> gmap string nat -> store -> outcome.

Definition traced_init (args : list nat) (kwargs : gmap string nat) (st : store) : outcome :=
  (* [mw = kwargs.pop("middleware", [])] *)
  let '(mw, kwargs, st) :=
    match kwargs !! "middleware"%string with
    | Some r => (r, delete "middleware"%string kwargs, st)
    | None =>
        let r := fresh (dom st) in
        (r, kwargs, <[r := PyList []]> st)
    end in
  (* [mw.insert(0, Middleware(TraceMiddleware))] *)
  match st !! mw with
  | Some (PyList items) =>
      let st := <[mw := PyList (TraceMiddleware :: items)]> st in
      let kwargs := <["middleware"%string := mw]> kwargs in
      wrapped args kwargs st
  | _ => Raised AttributeError st
  end.

(** [n] applications constructed one after the other with the same arguments. *)
Fixpoint construct (n : nat) (args : list nat) (kwargs : gmap string nat) (st : store) : outcome :=
  match n with
  | O => Returned st
  | S n' =>
      match traced_init args kwargs st with
      | Returned st' => construct n' args kwargs st'
      | Raised e st' => Raised e st'
      end
  end.

End traced_init.

End StarlettePatch.

(** What the rest of [start_span] preserves once the span is registered:
    the trace table and the trace identifier of the span. *)
Definition registered {P : Type} (traces : gmap (option Z) _Trace.t) (span : nat)
    (trace_id : Z) (self : Tracer.t P) : Prop :=
  Tracer._traces self = traces
  ∧ Span.trace_id <$> Tracer.heap_ self !! span = Some trace_id.

(** The finished count of a trace agrees with its spans: it is the number of
    finished spans in [_spans]. *)
Definition counted (h : gmap nat Span.t) (tr : _Trace.t) : Prop :=
  _Trace._num_finished tr = Z.of_nat (length (List.filter (is_finished h) (_Trace._spans tr))).

(** Every entry of the trace table sits under the identifier of its trace. *)
Definition keyed {P : Type} (self : Tracer.t P) : Prop :=
  ∀ key trace, Tracer._traces self !! key = Some trace → _Trace.trace_id trace = key.

(** The call keeps [I] whether it returns or raises; what it returns
    satisfies [Q] and what it raises satisfies [E]. *)
Definition keeps {S A} (I : S -> Prop) (E : exn -> Prop) (m : M S A) (Q : A -> Prop) : Prop :=
  ∀ s, I s →
    match m s with
    | Ok a s' => I s' ∧ Q a
    | Raise e s' => I s' ∧ E e
    end.

(** [s] is [s0] up to its [meta] tags. *)
Definition tagged (s s0 : Span.t) : Prop :=
  ∃ meta,
    s = Span.mk (Span.name s0) (Span.service s0) (Span.resource s0) (Span.span_type s0)
          (Span.trace_id s0) (Span.span_id s0) (Span.parent_id s0) meta
          (Span.metrics s0) (Span.finished s0) (Span._parent s0).

(** What the last part of [start_span] (global tags, [env], [version], the
    services set) preserves once the span is registered and activated: the
    trace table, the provider, the writer and the other spans; the span
    itself up to its tags. *)
Definition started {P : Type} (traces : gmap (option Z) _Trace.t) (p : P) (w : Writer.t)
    (h : gmap nat Span.t) (span : nat) (s0 : Span.t) (self : Tracer.t P) : Prop :=
  Tracer._traces self = traces
  ∧ Tracer.context_provider self = p
  ∧ Tracer.writer self = w
  ∧ (∀ r, r ≠ span → Tracer.heap_ self !! r = h !! r)
  ∧ ∃ s, Tracer.heap_ self !! span = Some s ∧ tagged s s0.

(** The trace a child span is registered in, once [start_span] has added
    the span [span] and taken over what the parent context [child_of]
    carries: [tr0] with the span appended; a [Context] with a sampling
    priority or an origin overrides the trace's. *)
Definition child_trace (child_of : option span_or_ctx) (span : nat) (tr0 : _Trace.t) : _Trace.t :=
  _Trace.mk (_Trace.trace_id tr0) (_Trace.sampled tr0)
    (match child_of with
     | Some (ACtx ctx) =>
         match Context.sampling_priority ctx with
         | Some p => Some p
         | None => _Trace.sampling_priority tr0
         end
     | _ => _Trace.sampling_priority tr0
     end)
    (match child_of with
     | Some (ACtx ctx) =>
         match Context.dd_origin ctx with
         | Some o => Some o
         | None => _Trace.dd_origin tr0
         end
     | _ => _Trace.dd_origin tr0
     end)
    (_Trace._num_finished tr0) (_Trace._spans tr0 ++ [span]) (_Trace.spans tr0).

(** The span behind [span] is live and its tags satisfy [Q]. *)
Definition span_meta {P : Type} (span : nat) (Q : gmap string string -> Prop)
    (self : Tracer.t P) : Prop :=
  ∃ s, Tracer.heap_ self !! span = Some s ∧ Q (Span.meta s).

(** ** Concrete tracers and traces for the examples *)

Definition keep_all : Span.t -> Span.t * bool := fun s => (s, true).

Definition drop_all : Span.t -> Span.t * bool := fun s => (s, false).

(** A new span as [Span(tracer, name, trace_id=..., span_id=...)] makes it. *)
Definition ex_span (name : string) (trace_id span_id : Z) (service : option string)
    (finished : bool) : Span.t :=
  Span.mk name service None None trace_id span_id None ∅ ∅ finished None.

(** A tracer as [Tracer()] sets it up in process 100: the default sampler and
    priority sampler (here keeping everything), no filter, no trace, running
    in one greenlet. *)
Definition tracer0 : Tracer.t (GeventContextProvider.t span_or_ctx) :=
  Tracer.mk (Sampler.mk Sampler.DatadogSampler keep_all) (Some keep_all) false []
    ∅ ∅ ∅ 100 true (GeventContextProvider.mk (Some 0%nat) ∅) (Writer.mk [])
    ∅ 100 (Config.mk None None None false) 0%nat "runtime" "host".

(** A trace whose only span is still open, and the store holding that span. *)
Definition ex_trace_open : _Trace.t := _Trace.mk (Some 42) true None None 0 [1%nat] None.

Definition ex_heap_open : gmap nat Span.t := {[ 1%nat := ex_span "child" 42 8 None false ]}.

(** A kept trace with an empty-string origin whose only span is finished. *)
Definition ex_trace_empty_origin : _Trace.t :=
  _Trace.mk (Some 42) true (Some 1) (Some ""%string) 0 [0%nat] None.

Definition ex_heap_finished : gmap nat Span.t := {[ 0%nat := ex_span "root" 42 7 None true ]}.

(** A kept trace continued from synthetic traffic whose only span is finished. *)
Definition ex_trace_synthetics : _Trace.t :=
  _Trace.mk (Some 42) true (Some 1) (Some "synthetics"%string) 0 [0%nat] None.

(** The scenarios below run with the default settings. *)
Section scenarios.
#[local] Existing Instance default_globals.

(** [root = tracer.start_span("web.request")]: trace 42 holds the open span 0. *)
Definition ex_parent : Tracer.t (GeventContextProvider.t span_or_ctx) :=
  state_of (Tracer.start_span (42, 7) "web.request" None None None None true tracer0).

(** The child process after a fork of [ex_parent]. *)
Definition ex_forked : Tracer.t (GeventContextProvider.t span_or_ctx) :=
  Tracer.fork 101 ex_parent.

(** [tracer.activate(Context(trace_id=42, span_id=7))] while span 0 is open. *)
Definition ex_replaced : Tracer.t (GeventContextProvider.t span_or_ctx) :=
  state_of (Tracer.activate (ACtx (Context.mk (Some 42) (Some 7) None None)) ex_parent).

(** [child = tracer.start_span("downstream", child_of=tracer.active())]: span 1. *)
Definition ex_continued : Tracer.t (GeventContextProvider.t span_or_ctx) :=
  state_of (Tracer.start_span (43, 8) "downstream" (Tracer.active ex_replaced)
              None None None true ex_replaced).

(** [child.finish()]: span 1 is flushed and the entry of trace 42 removed,
    while span 0 is still open. *)
Definition ex_child_done : Tracer.t (GeventContextProvider.t span_or_ctx) :=
  state_of (Span_finish 1%nat ex_continued).

(** [config.service = "web"] set after the root span was started without a service. *)
Definition ex_web : Tracer.t (GeventContextProvider.t span_or_ctx) :=
  Tracer.set_config (Config.mk (Some "web"%string) None None false) ex_parent.

End scenarios.

(** Further scenarios, with the default settings. *)
Section more_scenarios.
#[local] Existing Instance default_globals.

(** A tracer whose sampler drops every trace and that has no priority sampler. *)
Definition tracer_dropping : Tracer.t (GeventContextProvider.t span_or_ctx) :=
  Tracer.mk (Sampler.mk Sampler.OtherSampler drop_all) None false []
    ∅ ∅ ∅ 100 true (GeventContextProvider.mk (Some 0%nat) ∅) (Writer.mk [])
    ∅ 100 (Config.mk None None None false) 0%nat "runtime" "host".

(** [root = tracer_dropping.start_span("web.request")], then [root.finished = True]. *)
Definition ex_dropped : Tracer.t (GeventContextProvider.t span_or_ctx) :=
  state_of (Tracer.update_span 0%nat (Span.set_finished true)
    (state_of (Tracer.start_span (42, 7) "web.request" None None None None true
                 tracer_dropping))).

(** [child = tracer.trace("query")] while the span 0 of [ex_parent] is active:
    span 1, child of span 0. *)
Definition ex_nested : Tracer.t (GeventContextProvider.t span_or_ctx) :=
  state_of (Tracer.trace (43, 8) "query" None None None ex_parent).

(** A new tracer after [config.env = "prod"] and
    [tracer.set_tags({"team": "core", "env": "dev"})]. *)
Definition ex_tagged : Tracer.t (GeventContextProvider.t span_or_ctx) :=
  state_of (Tracer.set_tags {[ "team"%string := "core"%string; "env"%string := "dev"%string ]}
    (Tracer.set_config (Config.mk None (Some "prod"%string) None false) tracer0)).

End more_scenarios.

(** * Properties *)

(** ** The trace aggregator: [_Trace.finish_span] *)

Section trace_aggregator.
Context `{ModuleGlobals}.

Lemma flush_triggered_iff (tr : _Trace.t) :
  _Trace.flush_triggered tr = true ↔
    (_Trace._num_finished tr = Z.of_nat (length (_Trace._spans tr))
     ∨ (partial_flush_enabled = true
        ∧ partial_flush_min_spans ≤ _Trace._num_finished tr)).
Proof.
  unfold _Trace.flush_triggered, _Trace.len.
  rewrite orb_true_iff, andb_true_iff, Z.eqb_eq, Z.leb_le. tauto.
Qed.

Lemma is_finished_alter (f : Span.t -> Span.t) (c r : nat) (h : gmap nat Span.t) :
  (∀ s, Span.finished (f s) = Span.finished s) →
  is_finished (alter f c h) r = is_finished h r.
Proof.
  intros Hf. unfold is_finished. rewrite lookup_alter.
  case_decide as Hc; [subst|done].
  destruct (h !! r); simpl; [apply Hf|done].
Qed.

Lemma is_finished_stamp (tr : _Trace.t) (c r : nat) (h : gmap nat Span.t) :
  is_finished (_Trace.stamp_chunk_root tr c h) r = is_finished h r.
Proof.
  unfold _Trace.stamp_chunk_root.
  destruct (truthy_str _), (_Trace.sampling_priority tr), (_Trace.sampled tr);
    rewrite ?is_finished_alter; done.
Qed.

Lemma filter_unfinished_stamp (tr : _Trace.t) (c : nat) (h : gmap nat Span.t) (l : list nat) :
  List.filter (fun s => negb (is_finished (_Trace.stamp_chunk_root tr c h) s)) l
  = List.filter (fun s => negb (is_finished h s)) l.
Proof.
  apply List.filter_ext. intros r. by rewrite is_finished_stamp.
Qed.

(** Without the flush condition the call only counts. *)
Lemma finish_span_no_flush (tr : _Trace.t) (h : gmap nat Span.t) :
  _Trace.flush_triggered (_Trace.set_num_finished (_Trace._num_finished tr + 1) tr) = false →
  _Trace.finish_span (tr, h)
  = Ok ([], false, false) (_Trace.set_num_finished (_Trace._num_finished tr + 1) tr, h).
Proof. intros Hf. unfold _Trace.finish_span. by rewrite Hf. Qed.

(** With the flush condition and a finished span, the finished spans leave. *)
Lemma finish_span_flush (tr : _Trace.t) (h : gmap nat Span.t) (c : nat) (rest : list nat) :
  _Trace.flush_triggered (_Trace.set_num_finished (_Trace._num_finished tr + 1) tr) = true →
  List.filter (is_finished h) (_Trace._spans tr) = c :: rest →
  _Trace.finish_span (tr, h)
  = Ok (c :: rest, _Trace.sampled tr,
        Z.of_nat (length (List.filter (fun s => negb (is_finished h s)) (_Trace._spans tr))) =? 0)
       (_Trace.mk (_Trace.trace_id tr) (_Trace.sampled tr) (_Trace.sampling_priority tr)
          (_Trace.dd_origin tr)
          (_Trace._num_finished tr + 1 - Z.of_nat (length (c :: rest)))
          (List.filter (fun s => negb (is_finished h s)) (_Trace._spans tr))
          (_Trace.spans tr),
        _Trace.stamp_chunk_root tr c h).
Proof.
  intros Hf Hl. unfold _Trace.finish_span. rewrite Hf. simpl in *. rewrite Hl.
  unfold _Trace.len. simpl.
  change (_Trace.stamp_chunk_root
            (_Trace.set_num_finished (_Trace._num_finished tr + 1) tr) c h)
    with (_Trace.stamp_chunk_root tr c h).
  by rewrite !filter_unfinished_stamp.
Qed.

(** With the flush condition and no finished span, [finished_spans[0]] raises. *)
Lemma finish_span_flush_empty (tr : _Trace.t) (h : gmap nat Span.t) :
  _Trace.flush_triggered (_Trace.set_num_finished (_Trace._num_finished tr + 1) tr) = true →
  List.filter (is_finished h) (_Trace._spans tr) = [] →
  _Trace.finish_span (tr, h)
  = Raise IndexError (_Trace.set_num_finished (_Trace._num_finished tr + 1) tr, h).
Proof.
  intros Hf Hl. unfold _Trace.finish_span. rewrite Hf. simpl in *. by rewrite Hl.
Qed.

(** C1 (amended): [finish_span] returns a non-empty batch iff, once the
    counter is incremented, the flush condition holds (the counter equals the
    number of spans, or partial flush is enabled and the counter reaches
    [partial_flush_min_spans]) and at least one span of the trace is finished.
    On such a flush the batch is exactly the finished spans in insertion
    order, they leave the trace, the counter drops by the size of the batch,
    and [trace_done] tells whether no span remains. Without the flush
    condition the call returns [([], False, False)] and only counts. *)
Theorem finish_span_batch (tr : _Trace.t) (h : gmap nat Span.t) :
  let n := _Trace._num_finished tr + 1 in
  let cond := n = Z.of_nat (length (_Trace._spans tr))
              ∨ (partial_flush_enabled = true ∧ partial_flush_min_spans ≤ n) in
  let finished_spans := List.filter (is_finished h) (_Trace._spans tr) in
  let live := List.filter (fun s => negb (is_finished h s)) (_Trace._spans tr) in
  ((∃ batch sampled done st,
       _Trace.finish_span (tr, h) = Ok (batch, sampled, done) st ∧ batch ≠ [])
   ↔ cond ∧ finished_spans ≠ [])
  ∧ (cond → finished_spans ≠ [] →
     ∃ done tr' h',
       _Trace.finish_span (tr, h) = Ok (finished_spans, _Trace.sampled tr, done) (tr', h')
       ∧ _Trace._spans tr' = live
       ∧ _Trace._num_finished tr' = n - Z.of_nat (length finished_spans)
       ∧ (done = true ↔ _Trace._spans tr' = []))
  ∧ (¬ cond →
     _Trace.finish_span (tr, h)
     = Ok ([], false, false) (_Trace.set_num_finished n tr, h)).
Proof.
  intros n cond finished_spans live.
  assert (Hcond : _Trace.flush_triggered (_Trace.set_num_finished n tr) = true ↔ cond)
    by apply flush_triggered_iff.
  assert (Hflush : cond → finished_spans ≠ [] →
     ∃ done tr' h',
       _Trace.finish_span (tr, h) = Ok (finished_spans, _Trace.sampled tr, done) (tr', h')
       ∧ _Trace._spans tr' = live
       ∧ _Trace._num_finished tr' = n - Z.of_nat (length finished_spans)
       ∧ (done = true ↔ _Trace._spans tr' = [])).
  { intros Hc Hne. apply Hcond in Hc.
    destruct finished_spans as [|c rest] eqn:Hl; [done|].
    eexists _, _, _. rewrite (finish_span_flush tr h c rest Hc Hl). simpl.
    split_and!; try reflexivity.
    rewrite Z.eqb_eq. fold live. destruct live; simpl; split; (done || lia). }
  assert (Hnone : ¬ cond →
     _Trace.finish_span (tr, h)
     = Ok ([], false, false) (_Trace.set_num_finished n tr, h)).
  { intros Hc. apply finish_span_no_flush.
    apply not_true_iff_false. intros E. by apply Hc, Hcond. }
  split_and!; [|done|done].
  split.
  - intros (batch & sampled & done & st & Hr & Hne).
    destruct (_Trace.flush_triggered (_Trace.set_num_finished n tr)) eqn:E.
    + split; [by apply Hcond|]. intros Hl.
      rewrite (finish_span_flush_empty tr h E Hl) in Hr. discriminate.
    + rewrite (finish_span_no_flush tr h E) in Hr. by injection Hr as <- _ _ _.
  - intros [Hc Hne]. destruct (Hflush Hc Hne) as (done & tr' & h' & Hr & _).
    by eexists _, _, _, _.
Qed.

(** The first element a filter keeps, in its place in the list. *)
Lemma filter_head_split {A} (p : A -> bool) (l : list A) (c : A) (rest : list A) :
  List.filter p l = c :: rest →
  ∃ before after,
    l = before ++ c :: after ∧ Forall (fun x => p x = false) before ∧ p c = true.
Proof.
  induction l as [|x l IH]; simpl; [done|].
  destruct (p x) eqn:Hx.
  - intros [= -> _]. by exists [], l.
  - intros Hl. destruct (IH Hl) as (before & after & -> & Hb & Hc).
    exists (x :: before), after. split_and!; [done| by constructor |done].
Qed.

Lemma stamp_chunk_root_other (tr : _Trace.t) (c r : nat) (h : gmap nat Span.t) :
  r ≠ c → _Trace.stamp_chunk_root tr c h !! r = h !! r.
Proof.
  intros Hr. unfold _Trace.stamp_chunk_root.
  destruct (truthy_str _), (_Trace.sampling_priority tr), (_Trace.sampled tr);
    rewrite ?lookup_alter_ne; done.
Qed.

Lemma stamp_chunk_root_lookup (tr : _Trace.t) (c : nat) (h : gmap nat Span.t) (s : Span.t) :
  h !! c = Some s →
  ∃ s', _Trace.stamp_chunk_root tr c h !! c = Some s'
    ∧ Span.metrics s' =
        match _Trace.sampling_priority tr with
        | Some p => if _Trace.sampled tr
                    then <[SAMPLING_PRIORITY_KEY := Int p]> (Span.metrics s)
                    else Span.metrics s
        | None => Span.metrics s
        end
    ∧ Span.meta s' =
        if truthy_str (_Trace.dd_origin tr)
        then <[ORIGIN_KEY := default ""%string (_Trace.dd_origin tr)]> (Span.meta s)
        else Span.meta s.
Proof.
  intros Hs. unfold _Trace.stamp_chunk_root.
  destruct (truthy_str _), (_Trace.sampling_priority tr), (_Trace.sampled tr);
    rewrite ?lookup_alter_eq, ?Hs; simpl; eexists; split_and!; done.
Qed.

(** C2 (amended): the chunk root of a flushed batch is the first finished
    span in insertion order. It is stamped with the metric
    [_sampling_priority_v1], equal to the trace's [sampling_priority], iff the
    trace is sampled and the priority is present, and with the meta tag
    [_dd.origin], equal to the trace's [dd_origin], iff [dd_origin] is present
    and is not the empty string; otherwise its metrics, respectively its meta,
    stay as they were. No other span is changed. *)
Theorem finish_span_stamps_chunk_root (tr tr' : _Trace.t) (h h' : gmap nat Span.t)
    (batch : list nat) (sampled done : bool) :
  _Trace.finish_span (tr, h) = Ok (batch, sampled, done) (tr', h') →
  batch ≠ [] →
  ∃ chunk_root rest before after s s',
    batch = chunk_root :: rest
    ∧ _Trace._spans tr = before ++ chunk_root :: after
    ∧ Forall (fun r => is_finished h r = false) before
    ∧ is_finished h chunk_root = true
    ∧ h !! chunk_root = Some s
    ∧ h' !! chunk_root = Some s'
    ∧ (∀ p, _Trace.sampling_priority tr = Some p → _Trace.sampled tr = true →
         Span.metrics s' = <[SAMPLING_PRIORITY_KEY := Int p]> (Span.metrics s))
    ∧ (_Trace.sampling_priority tr = None ∨ _Trace.sampled tr = false →
         Span.metrics s' = Span.metrics s)
    ∧ (∀ o, _Trace.dd_origin tr = Some o → o ≠ ""%string →
         Span.meta s' = <[ORIGIN_KEY := o]> (Span.meta s))
    ∧ (_Trace.dd_origin tr = None ∨ _Trace.dd_origin tr = Some ""%string →
         Span.meta s' = Span.meta s)
    ∧ (∀ r, r ≠ chunk_root → h' !! r = h !! r).
Proof.
  intros Hr Hne.
  destruct (_Trace.flush_triggered
              (_Trace.set_num_finished (_Trace._num_finished tr + 1) tr)) eqn:E;
    [|rewrite (finish_span_no_flush tr h E) in Hr; by injection Hr as <- _ _ _].
  destruct (List.filter (is_finished h) (_Trace._spans tr)) as [|c rest] eqn:Hl;
    [rewrite (finish_span_flush_empty tr h E Hl) in Hr; discriminate|].
  rewrite (finish_span_flush tr h c rest E Hl) in Hr.
  injection Hr as <- _ _ _ <-.
  destruct (filter_head_split _ _ _ _ Hl) as (before & after & Hsp & Hb & Hc).
  assert (∃ s, h !! c = Some s) as [s Hs].
  { unfold is_finished in Hc. destruct (h !! c); [by eexists|done]. }
  destruct (stamp_chunk_root_lookup tr c h s Hs) as (s' & Hs' & Hmet & Hmeta).
  exists c, rest, before, after, s, s'.
  split_and!; try done.
  - intros p Hp Hsa. by rewrite Hmet, Hp, Hsa.
  - intros [Hp|Hsa]; rewrite Hmet; [by rewrite Hp|].
    rewrite Hsa. by destruct (_Trace.sampling_priority tr).
  - intros o Ho Hoe. rewrite Hmeta, Ho. simpl.
    destruct (String.eqb_spec o ""); done.
  - intros [Ho|Ho]; rewrite Hmeta, Ho; done.
  - intros r Hr. by apply stamp_chunk_root_other.
Qed.

(** *** The finished count under the tracer's protocol *)

Lemma is_finished_insert (h : gmap nat Span.t) (span r : nat) (s : Span.t) :
  is_finished (<[span := s]> h) r
  = if decide (span = r) then Span.finished s else is_finished h r.
Proof.
  unfold is_finished. rewrite lookup_insert. by case_decide.
Qed.

Lemma filter_finished_insert_fresh (h : gmap nat Span.t) (span : nat) (s : Span.t)
    (l : list nat) :
  span ∉ l →
  List.filter (is_finished (<[span := s]> h)) l = List.filter (is_finished h) l.
Proof.
  intros Hnot. apply List.filter_ext_in. intros r Hr%list_elem_of_In.
  rewrite is_finished_insert. case_decide; [by subst|done].
Qed.

(** Marking one registered, open span as finished adds one finished span. *)
Lemma filter_finished_insert (h : gmap nat Span.t) (span : nat) (s : Span.t)
    (l : list nat) :
  NoDup l → span ∈ l → is_finished h span = false → Span.finished s = true →
  length (List.filter (is_finished (<[span := s]> h)) l)
  = S (length (List.filter (is_finished h) l)).
Proof.
  intros Hnd Hin Hopen Hfin. induction l as [|x l IH]; [by apply elem_of_nil in Hin|].
  apply NoDup_cons in Hnd as [Hx Hnd]. simpl. rewrite is_finished_insert.
  case_decide as Hspan.
  - subst x. rewrite Hfin, Hopen. simpl. by rewrite filter_finished_insert_fresh.
  - apply elem_of_cons in Hin as [->|Hin]; [done|].
    destruct (is_finished h x); simpl; by rewrite IH.
Qed.

Lemma filter_finished_of_unfinished (h h' : gmap nat Span.t) (l : list nat) :
  (∀ r, is_finished h' r = is_finished h r) →
  List.filter (is_finished h') (List.filter (fun r => negb (is_finished h r)) l) = [].
Proof.
  intros Heq. induction l as [|x l IH]; [done|]. simpl.
  destruct (is_finished h x) eqn:Hx; simpl; [done|]. by rewrite Heq, Hx.
Qed.

(** Registering an open span keeps the count right. *)
Lemma counted_add_span (h : gmap nat Span.t) (tr : _Trace.t) (span : nat) :
  counted h tr → is_finished h span = false → counted h (_Trace.add_span span tr).
Proof.
  unfold counted. intros Hc Hopen. simpl.
  rewrite List.filter_app, length_app. simpl. rewrite Hopen. simpl. lia.
Qed.

(** When [finish_span] is called as [Span.finish] calls it, for a span that
    is registered once in the trace and has just been marked finished, and the
    count was right before, the call returns, the count is right afterwards
    and it lies between 0 and the number of spans. *)
Theorem finish_span_keeps_count (tr : _Trace.t) (h : gmap nat Span.t) (span : nat)
    (s : Span.t) :
  counted h tr →
  NoDup (_Trace._spans tr) →
  span ∈ _Trace._spans tr →
  h !! span = Some s →
  Span.finished s = false →
  ∃ r tr' h',
    _Trace.finish_span (tr, <[span := Span.set_finished true s]> h) = Ok r (tr', h')
    ∧ counted h' tr'
    ∧ 0 ≤ _Trace._num_finished tr' ≤ Z.of_nat (length (_Trace._spans tr')).
Proof.
  intros Hc Hnd Hin Hs Hopen.
  set (h1 := <[span := Span.set_finished true s]> h).
  assert (Hlen : length (List.filter (is_finished h1) (_Trace._spans tr))
                 = S (length (List.filter (is_finished h) (_Trace._spans tr)))).
  { apply filter_finished_insert; [done|done| |done].
    unfold is_finished. by rewrite Hs. }
  red in Hc.
  destruct (_Trace.flush_triggered
              (_Trace.set_num_finished (_Trace._num_finished tr + 1) tr)) eqn:E.
  - destruct (List.filter (is_finished h1) (_Trace._spans tr)) as [|c rest] eqn:Hl;
      [done|].
    eexists _, _, _. split; [by apply finish_span_flush|].
    unfold counted. simpl.
    rewrite (filter_finished_of_unfinished h1 (_Trace.stamp_chunk_root tr c h1))
      by (intros; apply is_finished_stamp).
    simpl in *. split; lia.
  - eexists _, _, _. split; [by apply finish_span_no_flush|].
    unfold counted. simpl. fold h1. rewrite Hlen. split; [lia|].
    pose proof (List.filter_length_le (is_finished h1) (_Trace._spans tr)). lia.
Qed.

End trace_aggregator.

(** C1 (counterexample): with the default settings, a trace whose only span is
    still open meets the flush condition once the counter is incremented
    (1 = 1), yet [finish_span] returns no batch: [finished_spans[0]] raises
    [IndexError]. *)
Lemma finish_span_open_trace_raises :
  _Trace._num_finished ex_trace_open + 1 = Z.of_nat (length (_Trace._spans ex_trace_open))
  ∧ @_Trace.finish_span default_globals (ex_trace_open, ex_heap_open)
    = Raise IndexError (_Trace.set_num_finished 1 ex_trace_open, ex_heap_open)
  ∧ ¬ ∃ batch sampled done st,
        @_Trace.finish_span default_globals (ex_trace_open, ex_heap_open)
        = Ok (batch, sampled, done) st ∧ batch ≠ [].
Proof.
  assert (E : @_Trace.finish_span default_globals (ex_trace_open, ex_heap_open)
              = Raise IndexError (_Trace.set_num_finished 1 ex_trace_open, ex_heap_open))
    by reflexivity.
  split_and!; [reflexivity|exact E|].
  intros (batch & sampled & done & st & Hr & _). rewrite E in Hr. discriminate.
Qed.

(** C2 (counterexample): a trace whose [dd_origin] is present but is the empty
    string flushes its root without the [_dd.origin] tag, while the priority
    is stamped. *)
Lemma finish_span_empty_origin_not_stamped :
  _Trace.dd_origin ex_trace_empty_origin = Some ""%string
  ∧ ∃ tr' h',
      @_Trace.finish_span default_globals (ex_trace_empty_origin, ex_heap_finished)
      = Ok ([0%nat], true, true) (tr', h')
      ∧ (h' !! 0%nat ≫= fun s => Span.meta s !! ORIGIN_KEY) = None
      ∧ (h' !! 0%nat ≫= fun s => Span.metrics s !! SAMPLING_PRIORITY_KEY) = Some (Int 1).
Proof.
  split; [reflexivity|].
  eexists _, _. split_and!; [reflexivity| |]; vm_compute; reflexivity.
Qed.

(** C2 (witness): the root of a trace continued from synthetic traffic is
    stamped with both the priority and the origin. *)
Lemma finish_span_stamps_chunk_root_witness :
  ∃ tr' h' s',
    @_Trace.finish_span default_globals (ex_trace_synthetics, ex_heap_finished)
    = Ok ([0%nat], true, true) (tr', h')
    ∧ h' !! 0%nat = Some s'
    ∧ Span.metrics s' !! SAMPLING_PRIORITY_KEY = Some (Int 1)
    ∧ Span.meta s' !! ORIGIN_KEY = Some "synthetics"%string.
Proof.
  destruct (@_Trace.finish_span default_globals (ex_trace_synthetics, ex_heap_finished))
    as [[[batch sampled] done] [tr' h']|] eqn:E; [|discriminate E].
  assert (Hb : batch = [0%nat]) by (by injection E as <- _ _ _ _).
  assert (Hne : batch ≠ []) by (by rewrite Hb).
  destruct (@finish_span_stamps_chunk_root default_globals _ _ _ _ _ _ _ E Hne)
    as (c & rest & before & after & s & s' & Hbatch & _ & _ & _ & _ & Hs' & Hmet & _ & Hmeta & _).
  assert (c = 0%nat) as -> by congruence.
  exists tr', h', s'. split_and!.
  - injection E as <- <- <- _ _. reflexivity.
  - exact Hs'.
  - rewrite (Hmet 1 eq_refl eq_refl). apply lookup_insert_eq.
  - rewrite (Hmeta "synthetics"%string eq_refl ltac:(discriminate)). apply lookup_insert_eq.
Defined.

(** ** The gevent context provider *)

Section gevent.
Context {V : Type}.
Implicit Types (w : GeventContextProvider.t V) (x : option V).

Lemma gevent_active_switch (g : nat) w :
  GeventContextProvider.active (GeventContextProvider.switch g w)
  = GeventContextProvider.getattr g GeventContextProvider.CONTEXT_ATTR w.
Proof. reflexivity. Qed.

(** What another greenlet activates does not touch the attributes of [g]. *)
Lemma gevent_run_others_attrs (others : list (nat * option V)) (g : nat) w :
  Forall (fun a => a.1 ≠ g) others →
  GeventContextProvider.attrs (GeventContextProvider.run_others others w) !! g
  = GeventContextProvider.attrs w !! g.
Proof.
  revert w. induction others as [|[g' x] others IH]; intros w Hall; [done|].
  apply Forall_cons in Hall as [Hg Hall]. simpl in *.
  rewrite (IH _ Hall). by apply lookup_insert_ne.
Qed.

Lemma gevent_getattr_attrs (g : nat) (name : string) w w' :
  GeventContextProvider.attrs w !! g = GeventContextProvider.attrs w' !! g →
  GeventContextProvider.getattr g name w = GeventContextProvider.getattr g name w'.
Proof. unfold GeventContextProvider.getattr. by intros ->. Qed.

(** C9: in the flow of greenlet [g], [activate(x)] returns [x] and [active()]
    then returns [x], also after any activations made meanwhile by other
    greenlets; and when nothing was activated in [g] (its greenlet carries no
    [__datadog_context] attribute, whatever other attributes it has),
    [active()] returns nothing, whatever other greenlets activated. *)
Theorem gevent_activate_then_active (g : nat) x (others : list (nat * option V)) w :
  GeventContextProvider.getcurrent w = Some g →
  Forall (fun a => a.1 ≠ g) others →
  (GeventContextProvider.activate x w).2 = x
  ∧ GeventContextProvider.active (GeventContextProvider.activate x w).1 = x
  ∧ GeventContextProvider.active
      (GeventContextProvider.switch g
         (GeventContextProvider.run_others others (GeventContextProvider.activate x w).1)) = x
  ∧ ((∀ a, GeventContextProvider.attrs w !! g = Some a →
           a !! GeventContextProvider.CONTEXT_ATTR = None) →
     GeventContextProvider.active w = None
     ∧ GeventContextProvider.active
         (GeventContextProvider.switch g (GeventContextProvider.run_others others w)) = None).
Proof.
  intros Hg Hall.
  assert (Hact : GeventContextProvider.activate x w
                 = (GeventContextProvider.setattr g GeventContextProvider.CONTEXT_ATTR x w, x)).
  { unfold GeventContextProvider.activate. by rewrite Hg. }
  assert (Hset : GeventContextProvider.getattr g GeventContextProvider.CONTEXT_ATTR
                   (GeventContextProvider.activate x w).1 = x).
  { rewrite Hact. unfold GeventContextProvider.getattr, GeventContextProvider.setattr.
    simpl. by rewrite !lookup_insert_eq. }
  split_and!.
  - by rewrite Hact.
  - rewrite <- Hset at 2. rewrite Hact.
    unfold GeventContextProvider.active, GeventContextProvider._get_current_context.
    simpl. by rewrite Hg.
  - rewrite gevent_active_switch. rewrite <- Hset at 2.
    apply gevent_getattr_attrs. by apply gevent_run_others_attrs.
  - intros Hnone.
    assert (Hget : GeventContextProvider.getattr g GeventContextProvider.CONTEXT_ATTR w
                   = None).
    { unfold GeventContextProvider.getattr.
      destruct (GeventContextProvider.attrs w !! g) as [a|] eqn:Ha; [|done].
      by rewrite (Hnone a eq_refl). }
    split.
    + unfold GeventContextProvider.active, GeventContextProvider._get_current_context.
      by rewrite Hg.
    + rewrite gevent_active_switch. rewrite <- Hget.
      apply gevent_getattr_attrs. by apply gevent_run_others_attrs.
Qed.

End gevent.

(** C9 (witness): greenlet 0, which carries another attribute but no
    [__datadog_context], activates a context while greenlets 1 and 2 activate
    theirs. *)
Lemma gevent_activate_then_active_witness :
  let w := GeventContextProvider.mk (Some 0%nat)
             {[ 0%nat := {[ "spawning_greenlet"%string := None ]} ]} in
  let x := Some (Context.mk (Some 42) (Some 7) None None) in
  let others := [(1%nat, Some (Context.mk (Some 1) (Some 1) None None)); (2%nat, None)] in
  (GeventContextProvider.activate x w).2 = x
  ∧ GeventContextProvider.active (GeventContextProvider.activate x w).1 = x
  ∧ GeventContextProvider.active
      (GeventContextProvider.switch 0
         (GeventContextProvider.run_others others (GeventContextProvider.activate x w).1)) = x
  ∧ GeventContextProvider.active w = None
  ∧ GeventContextProvider.active
      (GeventContextProvider.switch 0 (GeventContextProvider.run_others others w)) = None.
Proof.
  intros w x others.
  destruct (gevent_activate_then_active 0%nat x others w) as (Hret & Hact & Hlater & Hnone).
  - reflexivity.
  - repeat constructor; simpl; lia.
  - split; [exact Hret|]. split; [exact Hact|]. split; [exact Hlater|].
    apply Hnone. intros a Ha. vm_compute in Ha. injection Ha as <-.
    vm_compute. reflexivity.
Defined.

(** ** Rules for calls that return *)

Section returns_rules.
Context {S : Type}.

Lemma returns_iff {A} (m : M S A) (s : S) (Q : A -> S -> Prop) :
  returns m s Q ↔ ∃ a s', m s = Ok a s' ∧ Q a s'.
Proof.
  unfold returns. destruct (m s) as [a s'|e s'].
  - split; [by eexists _, _|]. by intros (? & ? & [= <- <-] & ?).
  - split; [done|]. by intros (? & ? & ? & ?).
Qed.

Lemma returns_mono {A} (m : M S A) (s : S) (Q Q' : A -> S -> Prop) :
  returns m s Q → (∀ a s', Q a s' → Q' a s') → returns m s Q'.
Proof. unfold returns. destruct (m s); [auto|done]. Qed.

Lemma returns_bind {A B} (m : M S A) (k : A -> M S B) (s : S) (Q : B -> S -> Prop) :
  returns m s (fun a s' => returns (k a) s' Q) → returns (bind m k) s Q.
Proof. unfold returns, bind. by destruct (m s). Qed.

Lemma returns_ret {A} (a : A) (s : S) (Q : A -> S -> Prop) :
  Q a s → returns (ret a) s Q.
Proof. done. Qed.

Lemma returns_get (s : S) (Q : S -> S -> Prop) : Q s s → returns get s Q.
Proof. done. Qed.

Lemma returns_modify (f : S -> S) (s : S) (Q : unit -> S -> Prop) :
  Q tt (f s) → returns (modify f) s Q.
Proof. done. Qed.

(** A write that keeps an invariant of the state. *)
Lemma returns_modify_inv (I : S -> Prop) (f : S -> S) (s : S) (Q : unit -> S -> Prop) :
  I s → (∀ s0, I s0 → I (f s0)) → (∀ s', I s' → Q tt s') → returns (modify f) s Q.
Proof. intros Hs Hf HQ. apply returns_modify. auto. Qed.

End returns_rules.

(** One step of a call: binds, reads and writes of the state, branches. *)
Ltac step :=
  lazymatch goal with
  | |- returns (bind _ _) _ _ => apply returns_bind
  | |- returns (ret _) _ _ => apply returns_ret
  | |- returns get _ _ => apply returns_get
  | |- returns (modify _) _ _ => apply returns_modify
  | |- returns (if ?b then _ else _) _ _ => destruct b eqn:?
  | |- returns (match ?o with Some _ => _ | None => _ end) _ _ => destruct o eqn:?
  end.

(** ** The tracer *)

Section tracer.
Context {P : Type} `{!ContextProvider P span_or_ctx} `{!ModuleGlobals}.
Implicit Types (self : Tracer.t P).

(** C10: activating a [Context] installs, under the context's [trace_id], a
    new trace with [sampled = True], no span, a zero finished count and the
    context's [sampling_priority] and [dd_origin], whatever trace (and spans
    registered in it) the mapping held under that identifier; the other
    entries and the spans themselves are left alone. *)
Theorem activate_context_installs_trace (ctx : Context.t) self :
  ∃ self',
    Tracer.activate (ACtx ctx) self = Ok tt self'
    ∧ Tracer._traces self' !! Context.trace_id ctx
      = Some (_Trace.mk (Context.trace_id ctx) true (Context.sampling_priority ctx)
                (Context.dd_origin ctx) 0 [] None)
    ∧ (∀ k, k ≠ Context.trace_id ctx →
         Tracer._traces self' !! k = Tracer._traces self !! k)
    ∧ Tracer.heap_ self' = Tracer.heap_ self
    ∧ Tracer.context_provider self'
      = (cp_activate (Some (ACtx ctx)) (Tracer.context_provider self)).1.
Proof.
  eexists. split; [reflexivity|]. simpl. split_and!; try reflexivity.
  - apply lookup_insert_eq.
  - intros k Hk. by apply lookup_insert_ne.
Qed.

(** *** Fork detection *)

Lemma check_new_process_same_pid self :
  Tracer._pid self = Tracer.getpid self →
  Tracer._check_new_process self = Ok tt self.
Proof.
  intros Hpid. unfold Tracer._check_new_process, bind, get.
  by rewrite Hpid, Z.eqb_refl.
Qed.

(** In a new process with registered traces the loop over [_traces] raises
    at its first key: the identifier source is reseeded, nothing else is done. *)
Lemma check_new_process_raises self :
  Tracer._pid self ≠ Tracer.getpid self →
  Tracer._traces self ≠ ∅ →
  Tracer._check_new_process self
  = Raise TypeError
      (Tracer.set_rand_seeds (S (Tracer.rand_seeds self))
         (Tracer.set_pid (Tracer.getpid self) self)).
Proof.
  intros Hpid Hne. unfold Tracer._check_new_process, bind, get.
  apply Z.eqb_neq in Hpid. rewrite Hpid.
  destruct (map_to_list (Tracer._traces self)) as [|[k tr] l] eqn:Hl.
  - by apply map_to_list_empty_iff in Hl.
  - reflexivity.
Qed.

(** In a new process without any registered trace the handler completes. *)
Lemma check_new_process_no_trace self :
  Tracer._pid self ≠ Tracer.getpid self →
  Tracer._traces self = ∅ →
  Tracer._check_new_process self
  = Ok tt
      (Tracer.set_writer (Writer.recreate (Tracer.writer self))
         (Tracer.set_services ∅
            (Tracer.set_rand_seeds (S (Tracer.rand_seeds self))
               (Tracer.set_pid (Tracer.getpid self) self)))).
Proof.
  intros Hpid Hnone. unfold Tracer._check_new_process, bind, get.
  apply Z.eqb_neq in Hpid. rewrite Hpid, Hnone, map_to_list_empty.
  destruct self as [? ? worker ? ? ? ? ? ? ? ? ? ? ? ? ? ?]. simpl.
  by destruct worker.
Qed.

(** What [_check_new_process] leaves alone when it returns. *)
Lemma check_new_process_returns self :
  Tracer._pid self = Tracer.getpid self ∨ Tracer._traces self = ∅ →
  returns Tracer._check_new_process self (fun _ self1 =>
    Tracer.sampler self1 = Tracer.sampler self
    ∧ Tracer.priority_sampler self1 = Tracer.priority_sampler self
    ∧ Tracer._traces self1 = Tracer._traces self
    ∧ Tracer.heap_ self1 = Tracer.heap_ self
    ∧ Tracer.config self1 = Tracer.config self
    ∧ ∀ rand name service resource span_type,
        Tracer.new_root_span rand name service resource span_type self1
        = Tracer.new_root_span rand name service resource span_type
            (Tracer.set_pid (Tracer.getpid self) self)).
Proof.
  intros Hok. unfold returns.
  destruct (decide (Tracer._pid self = Tracer.getpid self)) as [Hpid|Hpid].
  - rewrite (check_new_process_same_pid self Hpid). split_and!; try done.
    intros. unfold Tracer.new_root_span. simpl. by rewrite Hpid.
  - destruct Hok as [?|Hnone]; [done|].
    rewrite (check_new_process_no_trace self Hpid Hnone). simpl.
    split_and!; done.
Qed.

(** *** Sampling of a root span *)

Lemma trace_id_alter (f : Span.t -> Span.t) (r r' : nat) (h : gmap nat Span.t) :
  (∀ s, Span.trace_id (f s) = Span.trace_id s) →
  Span.trace_id <$> alter f r h !! r' = Span.trace_id <$> h !! r'.
Proof.
  intros Hf. rewrite lookup_alter. case_decide; [subst|done].
  destruct (h !! r'); simpl; [by rewrite Hf|done].
Qed.

(** The root branch registers the sampled span and stores the decision. *)
Lemma start_root_span_returns (rand : Z * Z) (name : string)
    (service resource span_type : option string) self :
  returns (Tracer.start_root_span rand name service resource span_type) self
    (fun span self' =>
       ∃ trace,
         Tracer.heap_ self' !! span
         = Some (Tracer.sample_root self
                   (Tracer.new_root_span rand name service resource span_type self)).1.1
         ∧ Tracer._traces self'
             !! Some (Span.trace_id
                        (Tracer.sample_root self
                           (Tracer.new_root_span rand name service resource span_type self)).1.1)
           = Some trace
         ∧ _Trace.sampled trace
           = (Tracer.sample_root self
                (Tracer.new_root_span rand name service resource span_type self)).1.2
         ∧ _Trace.sampling_priority trace
           = (Tracer.sample_root self
                (Tracer.new_root_span rand name service resource span_type self)).2
         ∧ span ∈ _Trace._spans trace).
Proof.
  unfold Tracer.start_root_span. step. step.
  destruct (Tracer.sample_root self _) as [[s sampled] prio]. simpl.
  unfold Tracer.alloc, Tracer._get_or_create_trace, Tracer.update_trace.
  repeat (step; cbv beta); simpl in *; eexists;
    rewrite lookup_insert_eq, !lookup_alter_eq, ?lookup_insert_eq;
    repeat match goal with Hl : _ !! _ = Some _ |- _ => rewrite Hl end;
    simpl; split_and!; try done; set_solver.
Qed.

Lemma sample_root_ext self self1 (s : Span.t) :
  Tracer.sampler self1 = Tracer.sampler self →
  Tracer.priority_sampler self1 = Tracer.priority_sampler self →
  Tracer.sample_root self1 s = Tracer.sample_root self s.
Proof. intros Hs Hp. unfold Tracer.sample_root. by rewrite Hs, Hp. Qed.

Lemma choose_service_ext self self1 (service : option string) (parent : option nat) :
  Tracer.heap_ self1 = Tracer.heap_ self →
  Tracer.config self1 = Tracer.config self →
  Tracer.choose_service service parent self1 = Tracer.choose_service service parent self.
Proof. intros Hh Hc. unfold Tracer.choose_service. by rewrite Hh, Hc. Qed.

(** The decision [sample_root] takes, case by case. *)
Lemma sample_root_decision self (s0 : Span.t) :
  let kept := (Sampler.sample (Tracer.sampler self) s0).2 in
  let s1 :=
    match Sampler.class (Tracer.sampler self) with
    | Sampler.RateSampler sample_rate =>
        Span.set_metric SAMPLE_RATE_METRIC_KEY (Float sample_rate)
          (Sampler.sample (Tracer.sampler self) s0).1
    | _ => (Sampler.sample (Tracer.sampler self) s0).1
    end in
  let sampled := (Tracer.sample_root self s0).1.2 in
  let priority := (Tracer.sample_root self s0).2 in
  (Sampler.class (Tracer.sampler self) = Sampler.DatadogSampler →
     sampled = true ∧ priority = Some (if kept then AUTO_KEEP else AUTO_REJECT))
  ∧ (Sampler.class (Tracer.sampler self) ≠ Sampler.DatadogSampler →
     sampled = kept
     ∧ (Tracer.priority_sampler self = None → priority = None)
     ∧ (∀ priority_sample, Tracer.priority_sampler self = Some priority_sample →
          (kept = false → priority = Some AUTO_REJECT)
          ∧ (kept = true → (priority_sample s1).2 = true → priority = Some AUTO_KEEP)
          ∧ (kept = true → (priority_sample s1).2 = false → priority = Some AUTO_REJECT))).
Proof.
  unfold Tracer.sample_root, Sampler.is_DatadogSampler.
  destruct (Sampler.sample (Tracer.sampler self) s0) as [s k] eqn:Hs. simpl.
  destruct (Sampler.class (Tracer.sampler self)) as [|rate|] eqn:Hc; simpl.
  - split; [done|]. by intros [].
  - split; [done|]. intros _.
    destruct k, (Tracer.priority_sampler self) as [ps|]; simpl;
      try destruct (ps _) as [s' keep] eqn:Hps; simpl;
      (split_and!; [done|done|intros ? [= <-]; rewrite ?Hps; simpl;
                    split_and!; intros; subst; congruence]).
  - split; [done|]. intros _.
    destruct k, (Tracer.priority_sampler self) as [ps|]; simpl;
      try destruct (ps _) as [s' keep] eqn:Hps; simpl;
      (split_and!; [done|done|intros ? [= <-]; rewrite ?Hps; simpl;
                    split_and!; intros; subst; congruence]).
Qed.

Lemma registered_update_span traces span trace_id (f : Span.t -> Span.t) self :
  (∀ s, Span.trace_id (f s) = Span.trace_id s) →
  registered traces span trace_id self →
  registered traces span trace_id
    (Tracer.set_heap (alter f span (Tracer.heap_ self)) self).
Proof.
  intros Hf [Ht Hs]. split; [done|]. simpl. by rewrite trace_id_alter.
Qed.

(** C7: a root span (a [child_of] without a non-zero trace identifier) is
    registered in a trace that holds the sampling decision. With the default
    [DatadogSampler] the trace is sampled unconditionally and its priority is
    [AUTO_KEEP] when the sampler kept the span, else [AUTO_REJECT]. With any
    other primary sampler [sampled] is the primary decision and the priority
    is absent without a priority sampler, [AUTO_REJECT] when the primary
    dropped, [AUTO_KEEP] when both kept, [AUTO_REJECT] when the primary kept
    and the priority sampler dropped. *)
Theorem start_span_root_sampling (rand : Z * Z) (name : string)
    (child_of : option span_or_ctx) (service resource span_type : option string)
    (activate : bool) self :
  Tracer._pid self = Tracer.getpid self ∨ Tracer._traces self = ∅ →
  truthy_int (child_of ≫= Tracer.active_trace_id (Tracer.heap_ self)) = false →
  let parent := match child_of with
                | Some (ASpan p) => Some p
                | _ => None
                end in
  let s0 := Tracer.new_root_span rand name (Tracer.choose_service service parent self)
              resource span_type (Tracer.set_pid (Tracer.getpid self) self) in
  let kept := (Sampler.sample (Tracer.sampler self) s0).2 in
  let s1 :=
    match Sampler.class (Tracer.sampler self) with
    | Sampler.RateSampler sample_rate =>
        Span.set_metric SAMPLE_RATE_METRIC_KEY (Float sample_rate)
          (Sampler.sample (Tracer.sampler self) s0).1
    | _ => (Sampler.sample (Tracer.sampler self) s0).1
    end in
  ∃ span self' trace,
    Tracer.start_span rand name child_of service resource span_type activate self
    = Ok span self'
    ∧ Tracer._traces self' !! (Span.trace_id <$> Tracer.heap_ self' !! span) = Some trace
    ∧ span ∈ _Trace._spans trace
    ∧ (Sampler.class (Tracer.sampler self) = Sampler.DatadogSampler →
         _Trace.sampled trace = true
         ∧ _Trace.sampling_priority trace = Some (if kept then AUTO_KEEP else AUTO_REJECT))
    ∧ (Sampler.class (Tracer.sampler self) ≠ Sampler.DatadogSampler →
         _Trace.sampled trace = kept
         ∧ (Tracer.priority_sampler self = None → _Trace.sampling_priority trace = None)
         ∧ (∀ priority_sample, Tracer.priority_sampler self = Some priority_sample →
              (kept = false → _Trace.sampling_priority trace = Some AUTO_REJECT)
              ∧ (kept = true → (priority_sample s1).2 = true →
                   _Trace.sampling_priority trace = Some AUTO_KEEP)
              ∧ (kept = true → (priority_sample s1).2 = false →
                   _Trace.sampling_priority trace = Some AUTO_REJECT))).
Proof.
  intros Hok Hroot parent s0 kept s1.
  pose proof (sample_root_decision self s0) as [Hdec1 Hdec2].
  cut (returns
         (Tracer.start_span rand name child_of service resource span_type activate) self
         (fun span self' =>
            ∃ trace,
              Tracer._traces self' !! (Span.trace_id <$> Tracer.heap_ self' !! span)
              = Some trace
              ∧ span ∈ _Trace._spans trace
              ∧ _Trace.sampled trace = (Tracer.sample_root self s0).1.2
              ∧ _Trace.sampling_priority trace = (Tracer.sample_root self s0).2)).
  { intros (span & self' & Hr & trace & Hl & Hin & Hsa & Hpr)%returns_iff.
    exists span, self', trace. rewrite Hsa, Hpr. by split_and!. }
  clear Hdec1 Hdec2.
  unfold Tracer.start_span. step.
  eapply returns_mono; [by apply check_new_process_returns|].
  intros [] self1 (Hs & Hps & Htr & Hh & Hc & Hnew). cbv beta.
  step. step. cbv beta. rewrite Hh, Hroot. step.
  eapply returns_mono; [apply start_root_span_returns|].
  intros span self2 (trace & Hheap & Hlook & Hsam & Hprio & Hin). cbv beta.
  rewrite Hnew, (choose_service_ext self self1), (sample_root_ext self self1)
    in Hheap, Hlook, Hsam, Hprio by done.
  fold parent in Hheap, Hlook, Hsam, Hprio. fold s0 in Hheap, Hlook, Hsam, Hprio.
  assert (Hreg : registered (Tracer._traces self2) span
                   (Span.trace_id (Tracer.sample_root self s0).1.1) self2)
    by (split; [done|by rewrite Hheap]).
  remember (Tracer._traces self2) as traces eqn:Htraces.
  clear Htraces. revert Hreg. generalize self2. clear self2 Hheap.
  unfold Tracer.provider_activate, Tracer.update_span,
    Tracer._update_dogstatsd_constant_tags.
  intros self2 Hreg.
  repeat
    lazymatch goal with
    | |- returns (bind _ _) _ _ => apply returns_bind
    | |- returns (if ?b then _ else _) _ _ => destruct b
    | |- returns get _ _ => apply returns_get; cbv beta
    | Hr : registered _ _ _ ?st |- returns (modify _) ?st _ =>
        apply (returns_modify_inv _ _ _ _ Hr);
        [ clear; intros st' Hr';
          first [ by apply registered_update_span | exact Hr' ]
        | clear Hr; intros ? Hr ]
    | |- returns (ret tt) _ (fun _ _ => _) => apply returns_ret; cbv beta
    end.
  all: apply returns_ret; destruct Hreg as [-> ->]; by exists trace.
Qed.

(** *** Finishing a span whose trace is not registered *)

(** [_finish_span] on a span whose trace identifier has no entry: a trace is
    created, its counter goes to 1 against no span, nothing is flushed and
    the entry stays (unless partial flush triggers at one span). *)
Lemma finish_span_forgotten_trace (span : nat) (s : Span.t) self :
  Tracer.heap_ self !! span = Some s →
  Tracer._traces self !! Some (Span.trace_id s) = None →
  partial_flush_enabled && (partial_flush_min_spans <=? 1) = false →
  ∃ self',
    Tracer._finish_span span self = Ok tt self'
    ∧ Tracer._traces self' !! Some (Span.trace_id s)
      = Some (_Trace.mk (Some (Span.trace_id s)) true None None 1 [] None)
    ∧ Tracer.writer self' = Tracer.writer self
    ∧ Tracer.heap_ self' = Tracer.heap_ self.
Proof.
  intros Hs Hnone Hpf.
  cut (returns (Tracer._finish_span span) self (fun _ self' =>
         Tracer._traces self' !! Some (Span.trace_id s)
         = Some (_Trace.mk (Some (Span.trace_id s)) true None None 1 [] None)
         ∧ Tracer.writer self' = Tracer.writer self
         ∧ Tracer.heap_ self' = Tracer.heap_ self)).
  { intros ([] & self' & Hr & ?)%returns_iff. by exists self'. }
  unfold Tracer._finish_span. step. step. cbv beta zeta. rewrite Hs. simpl.
  step.
  apply (returns_mono _ _ (fun _ self1 =>
           Tracer._traces self1 = Tracer._traces self
           ∧ Tracer.writer self1 = Tracer.writer self
           ∧ Tracer.heap_ self1 = Tracer.heap_ self)).
  { unfold Tracer.provider_activate. repeat step; done. }
  intros [] self1 (Ht & Hw & Hh). cbv beta.
  unfold Tracer._get_or_create_trace. do 3 (step; cbv beta).
  rewrite Ht, Hnone. do 4 (step; cbv beta).
  unfold returns, Tracer.call_trace.
  rewrite finish_span_no_flush; simpl.
  - rewrite lookup_insert_eq. by rewrite Hw, Hh.
  - unfold _Trace.flush_triggered, _Trace.len. simpl. exact Hpf.
Qed.

(** *** Service of a new span *)


End tracer.

(** ** The scenarios, evaluated with the default settings *)

Section defaults.
#[local] Existing Instance default_globals.

(** C7 (witness): the first root span of [tracer0], whose default sampler
    keeps it, is registered in a sampled trace with priority [AUTO_KEEP]. *)
Lemma start_span_root_sampling_witness :
  ∃ span self' trace,
    Tracer.start_span (42, 7) "web.request" None None None None true tracer0 = Ok span self'
    ∧ Tracer._traces self' !! (Span.trace_id <$> Tracer.heap_ self' !! span) = Some trace
    ∧ _Trace.sampled trace = true
    ∧ _Trace.sampling_priority trace = Some AUTO_KEEP.
Proof.
  destruct (start_span_root_sampling (42, 7) "web.request" None None None None true tracer0
              (or_introl eq_refl) eq_refl)
    as (span & self' & trace & Hr & Hl & _ & Hdd & _).
  destruct (Hdd eq_refl) as [Hsampled Hpriority].
  exists span, self', trace. split_and!; done.
Defined.

(** C3: a span finished after the entry of its trace was removed is not
    flushed. In [ex_child_done] trace 42 has no entry and span 0 is open;
    [root.finish()] returns, the entry it re-creates stays in the mapping with
    a finished count of 1 and no span, and the writer receives nothing. *)
Theorem late_finish_is_not_flushed :
  Tracer._traces ex_child_done !! Some 42 = None
  ∧ is_finished (Tracer.heap_ ex_child_done) 0 = false
  ∧ Span_finish 0%nat ex_child_done = Ok tt (state_of (Span_finish 0%nat ex_child_done))
  ∧ is_finished (Tracer.heap_ (state_of (Span_finish 0%nat ex_child_done))) 0 = true
  ∧ Tracer._traces (state_of (Span_finish 0%nat ex_child_done)) !! Some 42
    = Some (_Trace.mk (Some 42) true None None 1 [] None)
  ∧ Writer.queue (Tracer.writer (state_of (Span_finish 0%nat ex_child_done)))
    = Writer.queue (Tracer.writer ex_child_done)
  ∧ Writer.queue (Tracer.writer ex_child_done) = [[1%nat]].
Proof. split_and!; vm_compute; reflexivity. Qed.

(** C4: [finish_span] on a trace as [_get_or_create_trace] re-creates it
    leaves the finished count above the number of spans, and so does the
    tracer when span 0 of [ex_child_done] finishes. *)
Theorem recreated_trace_counter_exceeds_spans :
  _Trace.finish_span (_Trace.new (Some 42) None None, ex_heap_finished)
  = Ok ([], false, false) (_Trace.mk (Some 42) true None None 1 [] None, ex_heap_finished)
  ∧ ∃ trace,
      Tracer._traces (state_of (Span_finish 0%nat ex_child_done)) !! Some 42 = Some trace
      ∧ Z.of_nat (length (_Trace._spans trace)) < _Trace._num_finished trace.
Proof.
  split; [reflexivity|].
  exists (_Trace.mk (Some 42) true None None 1 [] None).
  split; [vm_compute; reflexivity|simpl; lia].
Qed.

(** C5: in the child of a fork, with trace 42 registered, [start_span]
    raises [TypeError]; and [root.finish()] raises [IndexError] when the
    trace registered under its identifier holds only an open span. *)
Theorem start_span_after_fork_raises :
  Tracer._pid ex_forked = 100 ∧ Tracer.getpid ex_forked = 101
  ∧ size (Tracer._traces ex_forked) = 1%nat
  ∧ Tracer.start_span (44, 9) "child.work" None None None None true ex_forked
    = Raise TypeError
        (state_of (Tracer.start_span (44, 9) "child.work" None None None None true ex_forked))
  ∧ Span_finish 0%nat ex_continued
    = Raise IndexError (state_of (Span_finish 0%nat ex_continued)).
Proof. split_and!; vm_compute; reflexivity. Qed.

(** C6: in the child of a fork the handler reseeds the identifier source and
    then raises [TypeError] at the loop over [_traces]: trace 42 still holds
    the parent's span 0, and finishing that span in the child hands it to the
    child's writer. *)
Theorem fork_handler_keeps_parent_spans :
  Tracer._check_new_process ex_forked
  = Raise TypeError (state_of (Tracer._check_new_process ex_forked))
  ∧ Tracer.rand_seeds (state_of (Tracer._check_new_process ex_forked))
    = S (Tracer.rand_seeds ex_forked)
  ∧ Tracer._traces (state_of (Tracer._check_new_process ex_forked)) = Tracer._traces ex_forked
  ∧ _Trace._spans <$> Tracer._traces (state_of (Tracer._check_new_process ex_forked)) !! Some 42
    = Some [0%nat]
  ∧ Writer.queue
      (Tracer.writer
         (state_of (Span_finish 0%nat (state_of (Tracer._check_new_process ex_forked)))))
    = [[0%nat]].
Proof. split_and!; vm_compute; reflexivity. Qed.

(** C8: with [config.service = "web"], no [service] argument and a parent
    span that has no service, the new span has no service. *)
Theorem child_of_serviceless_parent_has_no_service :
  Config.service (Tracer.config ex_web) = Some "web"%string
  ∧ Tracer.heap_ ex_web !! 0%nat ≫= Span.service = None
  ∧ ∃ span self',
      Tracer.start_span (1, 9) "child" (Some (ASpan 0)) None None None true ex_web
      = Ok span self'
      ∧ Tracer.heap_ self' !! span ≫= Span.service = None.
Proof.
  split_and!; [reflexivity|vm_compute; reflexivity|].
  exists 1%nat,
    (state_of (Tracer.start_span (1, 9) "child" (Some (ASpan 0)) None None None true ex_web)).
  split; vm_compute; reflexivity.
Qed.

(** The fork handler raises in the child of [ex_parent]. *)
Lemma check_new_process_raises_witness :
  Tracer._check_new_process ex_forked
  = Raise TypeError
      (Tracer.set_rand_seeds (S (Tracer.rand_seeds ex_forked))
         (Tracer.set_pid (Tracer.getpid ex_forked) ex_forked)).
Proof.
  apply (check_new_process_raises ex_forked).
  - vm_compute. discriminate.
  - intros Hempty. apply (f_equal (fun m => m !! Some 42)) in Hempty.
    vm_compute in Hempty. discriminate.
Defined.

(** Finishing span 0 of [ex_child_done], whose trace has no entry. *)
Lemma finish_span_forgotten_trace_witness :
  ∃ self',
    Tracer._finish_span 0%nat ex_child_done = Ok tt self'
    ∧ Tracer._traces self' !! Some 42
      = Some (_Trace.mk (Some 42) true None None 1 [] None)
    ∧ Tracer.writer self' = Tracer.writer ex_child_done.
Proof.
  destruct (Tracer.heap_ ex_child_done !! 0%nat) as [s|] eqn:Hs;
    [|vm_compute in Hs; discriminate].
  assert (Hid : Span.trace_id s = 42).
  { pose proof Hs as Hs'. vm_compute in Hs'. by injection Hs' as <-. }
  destruct (finish_span_forgotten_trace 0%nat s ex_child_done Hs) as (self' & Hr & Hl & Hw & _).
  - rewrite Hid. vm_compute. reflexivity.
  - reflexivity.
  - exists self'. rewrite Hid in Hl. by split_and!.
Defined.

(** The open span of [ex_trace_open] finishes. *)
Lemma finish_span_keeps_count_witness :
  ∃ r tr' h',
    _Trace.finish_span
      (ex_trace_open,
       <[1%nat := Span.set_finished true (ex_span "child" 42 8 None false)]> ex_heap_open)
    = Ok r (tr', h')
    ∧ counted h' tr'
    ∧ 0 ≤ _Trace._num_finished tr' ≤ Z.of_nat (length (_Trace._spans tr')).
Proof.
  apply (finish_span_keeps_count ex_trace_open ex_heap_open 1%nat
           (ex_span "child" 42 8 None false)).
  - vm_compute. reflexivity.
  - apply NoDup_singleton.
  - apply list_elem_of_singleton. reflexivity.
  - vm_compute. reflexivity.
  - reflexivity.
Defined.


End defaults.

(** * Further properties of the tracer *)

Section tracer_table.
Context {P : Type} `{!ContextProvider P span_or_ctx} `{!ModuleGlobals}.
Implicit Types (self : Tracer.t P).

(** [_get_or_create_trace] always returns; the trace it returns is the one
    [_get_trace] then finds. An existing entry is returned as it is and the
    tracer is unchanged; a missing one is created as [_Trace(trace_id)]; the
    other entries are untouched, and a second call returns the same trace. *)
Theorem get_or_create_trace_lookup (key : option Z) self :
  ∃ trace self',
    Tracer._get_or_create_trace key self = Ok trace self'
    ∧ Tracer._get_trace key self' = Some trace
    ∧ (∀ k, k ≠ key → Tracer._traces self' !! k = Tracer._traces self !! k)
    ∧ (∀ existing, Tracer._traces self !! key = Some existing →
         trace = existing ∧ self' = self)
    ∧ (Tracer._traces self !! key = None → trace = _Trace.new key None None)
    ∧ Tracer._get_or_create_trace key self' = Ok trace self'.
Proof.
  unfold Tracer._get_or_create_trace, Tracer._get_trace, bind, get.
  destruct (Tracer._traces self !! key) as [existing|] eqn:Hl.
  - exists existing, self. rewrite Hl. split_and!; try done.
    by intros ? [= <-].
  - eexists _, _. split; [reflexivity|]. simpl. rewrite lookup_insert_eq.
    split_and!; try done.
    intros k Hk. by apply lookup_insert_ne.
Qed.



Lemma check_new_process_records_pid self :
  Tracer._pid (state_of (Tracer._check_new_process self))
  = Tracer.getpid (state_of (Tracer._check_new_process self)).
Proof.
  unfold Tracer._check_new_process, bind, get.
  destruct (Tracer._pid self =? Tracer.getpid self) eqn:Hpid.
  - simpl. by apply Z.eqb_eq.
  - destruct (map_to_list (Tracer._traces self)) as [|[k tr] l]; simpl; [|done].
    by destruct (Tracer._runtime_worker self).
Qed.

(** The fork handler runs once per fork: whether it returned or raised, a
    second run finds the recorded PID up to date and changes nothing (no
    second reseeding, no second attempt at the traces). *)
Theorem check_new_process_runs_once self :
  Tracer._check_new_process (state_of (Tracer._check_new_process self))
  = Ok tt (state_of (Tracer._check_new_process self)).
Proof.
  apply check_new_process_same_pid, check_new_process_records_pid.
Qed.

End tracer_table.

(** ** Rules for invariants that hold whether a call returns or raises *)

Section keeps_rules.
Context {S : Type} (I : S -> Prop) (E : exn -> Prop).

Lemma keeps_ret {A} (a : A) (Q : A -> Prop) : Q a → keeps I E (ret a) Q.
Proof. intros Ha s Hs. by split. Qed.

Lemma keeps_get : keeps I E get I.
Proof. intros s Hs. by split. Qed.

Lemma keeps_modify (f : S -> S) (Q : unit -> Prop) :
  (∀ s, I s → I (f s)) → Q tt → keeps I E (modify f) Q.
Proof. intros Hf HQ s Hs. split; auto. Qed.

Lemma keeps_raise {A} (e : exn) (Q : A -> Prop) : E e → keeps I E (raise e) Q.
Proof. intros He s Hs. by split. Qed.

Lemma keeps_bind {A B} (m : M S A) (k : A -> M S B) (Q : A -> Prop) (R : B -> Prop) :
  keeps I E m Q → (∀ a, Q a → keeps I E (k a) R) → keeps I E (bind m k) R.
Proof.
  intros Hm Hk s Hs. unfold bind. specialize (Hm s Hs).
  destruct (m s) as [a s'|e s']; [|done]. destruct Hm as [Hs' Ha]. by apply Hk.
Qed.

Lemma keeps_weaken {A} (m : M S A) (Q Q' : A -> Prop) :
  keeps I E m Q → (∀ a, Q a → Q' a) → keeps I E m Q'.
Proof.
  intros Hm HQ s Hs. specialize (Hm s Hs).
  destruct (m s); [|done]. destruct Hm. auto.
Qed.

End keeps_rules.

Lemma keeps_no_raise {S A} (I : S -> Prop) (E : exn -> Prop) (m : M S A) (Q : A -> Prop) :
  keeps I (fun _ => False) m Q → keeps I E m Q.
Proof.
  intros Hm s Hs. specialize (Hm s Hs). destruct (m s); [done|]. by destruct Hm.
Qed.

(** One step of a call under an invariant. *)
Ltac kstep :=
  lazymatch goal with
  | |- keeps _ _ (bind _ _) _ =>
      eapply (keeps_bind _ _ _ _ (fun _ => True)); [|intros ? _]
  | |- keeps _ _ (ret _) _ => by apply keeps_ret
  | |- keeps _ _ get _ => eapply keeps_weaken; [apply keeps_get|done]
  | |- keeps _ _ (modify _) _ => apply keeps_modify; [|done]
  | |- keeps _ _ (if ?b then _ else _) _ => destruct b
  | |- keeps _ _ (match ?o with Some _ => _ | None => _ end) _ => destruct o
  end.

(** ** The trace table stays keyed by trace identifier *)

Section tracer_invariant.
Context {P : Type} `{!ContextProvider P span_or_ctx} `{!ModuleGlobals}.
Implicit Types (self : Tracer.t P).

Lemma keyed_insert (key : option Z) (trace : _Trace.t) self :
  keyed self → _Trace.trace_id trace = key →
  keyed (Tracer.set_traces (<[key := trace]> (Tracer._traces self)) self).
Proof.
  intros Hk Ht k tr. simpl. destruct (decide (k = key)) as [->|Hne].
  - rewrite lookup_insert_eq. by intros [= <-].
  - rewrite lookup_insert_ne by done. apply Hk.
Qed.

Lemma keyed_alter (f : _Trace.t -> _Trace.t) (key : option Z) self :
  (∀ tr, _Trace.trace_id (f tr) = _Trace.trace_id tr) → keyed self →
  keyed (Tracer.set_traces (alter f key (Tracer._traces self)) self).
Proof.
  intros Hf Hk k tr. simpl. rewrite lookup_alter. case_decide as Hc.
  - subst. destruct (Tracer._traces self !! k) as [tr0|] eqn:Hl; simpl; [|done].
    intros [= <-]. rewrite Hf. by apply Hk.
  - apply Hk.
Qed.

Lemma keyed_delete (key : option Z) self :
  keyed self → keyed (Tracer.set_traces (delete key (Tracer._traces self)) self).
Proof.
  intros Hk k tr. simpl. intros [_ Hl]%lookup_delete_Some. by apply Hk.
Qed.

Lemma finish_span_trace_id (tr : _Trace.t) (h : gmap nat Span.t) :
  _Trace.trace_id (state_of (_Trace.finish_span (tr, h))).1 = _Trace.trace_id tr.
Proof.
  unfold _Trace.finish_span.
  destruct (_Trace.flush_triggered _); [|done].
  by destruct (List.filter _ _).
Qed.

Lemma trace_finish_span_exn (tr : _Trace.t) (h : gmap nat Span.t) e s :
  _Trace.finish_span (tr, h) = Raise e s → e = IndexError.
Proof.
  unfold _Trace.finish_span.
  destruct (_Trace.flush_triggered _); [|done].
  destruct (List.filter _ _); [|done]. by intros [= <- _].
Qed.

Lemma keeps_state_of {S A} (I : S -> Prop) (E : exn -> Prop) (m : M S A) (Q : A -> Prop) s :
  keeps I E m Q → I s → I (state_of (m s)).
Proof. intros Hm Hs. specialize (Hm s Hs). destruct (m s); simpl; tauto. Qed.

Lemma keeps_get_or_create_trace (E : exn -> Prop) (key : option Z) :
  keeps (keyed (P:=P)) E (Tracer._get_or_create_trace key)
    (fun trace => _Trace.trace_id trace = key).
Proof.
  intros self Hk. unfold Tracer._get_or_create_trace, bind, get.
  destruct (Tracer._traces self !! key) as [trace|] eqn:Hl; simpl.
  - split; [done|]. by apply (Hk key).
  - split; [|done]. by apply keyed_insert.
Qed.

Lemma keeps_update_trace (E : exn -> Prop) (key : option Z) (f : _Trace.t -> _Trace.t) :
  (∀ tr, _Trace.trace_id (f tr) = _Trace.trace_id tr) →
  keeps (keyed (P:=P)) E (Tracer.update_trace key f) (fun _ => True).
Proof. intros Hf. apply keeps_modify; [|done]. intros self. by apply keyed_alter. Qed.

Lemma keeps_update_span (E : exn -> Prop) (span : nat) (f : Span.t -> Span.t) :
  keeps (keyed (P:=P)) E (Tracer.update_span span f) (fun _ => True).
Proof. by apply keeps_modify. Qed.

Lemma keeps_provider_activate (E : exn -> Prop) (x : option span_or_ctx) :
  keeps (keyed (P:=P)) E (Tracer.provider_activate x) (fun _ => True).
Proof. by apply keeps_modify. Qed.

Lemma keeps_alloc (E : exn -> Prop) (s : Span.t) :
  keeps (keyed (P:=P)) E (Tracer.alloc s) (fun _ => True).
Proof. unfold Tracer.alloc. repeat kstep. by intros ?. Qed.

Lemma keeps_write (E : exn -> Prop) (spans : list nat) :
  keeps (keyed (P:=P)) E (Tracer.write spans) (fun _ => True).
Proof.
  unfold Tracer.write. kstep; [kstep|].
  destruct spans; [kstep|]. repeat kstep. by intros ?.
Qed.

Lemma keeps_check_new_process :
  keeps (keyed (P:=P)) (eq TypeError) Tracer._check_new_process (fun _ => True).
Proof.
  intros self Hk. unfold Tracer._check_new_process, bind, get.
  destruct (Tracer._pid self =? Tracer.getpid self); [done|].
  destruct (map_to_list (Tracer._traces self)) as [|[k tr] l]; simpl; [|done].
  by destruct (Tracer._runtime_worker self).
Qed.

Lemma keeps_start_child_span (E : exn -> Prop) (rand : Z * Z) (name : string)
    (child_of : option span_or_ctx) (trace_id : Z) (parent_id : option Z)
    (parent : option nat) (service resource span_type : option string) :
  keeps (keyed (P:=P)) E
    (Tracer.start_child_span rand name child_of trace_id parent_id parent
       service resource span_type)
    (fun _ => True).
Proof.
  unfold Tracer.start_child_span. kstep; [apply keeps_alloc|].
  kstep; [eapply keeps_weaken; [apply keeps_get_or_create_trace|done]|].
  kstep; [by apply keeps_update_trace|].
  kstep; [kstep; [by apply keeps_update_trace|kstep]|].
  kstep; [kstep; [by apply keeps_update_trace|kstep]|].
  kstep.
Qed.

Lemma keeps_start_root_span (E : exn -> Prop) (rand : Z * Z) (name : string)
    (service resource span_type : option string) :
  keeps (keyed (P:=P)) E
    (Tracer.start_root_span rand name service resource span_type) (fun _ => True).
Proof.
  unfold Tracer.start_root_span. kstep; [kstep|].
  destruct (Tracer.sample_root _ _) as [[s sampled] prio].
  kstep; [apply keeps_alloc|].
  kstep; [eapply keeps_weaken; [apply keeps_get_or_create_trace|done]|].
  do 3 (kstep; [by apply keeps_update_trace|]).
  kstep.
Qed.

Lemma keeps_start_span (rand : Z * Z) (name : string) (child_of : option span_or_ctx)
    (service resource span_type : option string) (activate : bool) :
  keeps (keyed (P:=P)) (eq TypeError)
    (Tracer.start_span rand name child_of service resource span_type activate)
    (fun _ => True).
Proof.
  unfold Tracer.start_span. kstep; [apply keeps_check_new_process|].
  kstep; [kstep|]. cbv zeta.
  kstep.
  { kstep; [apply keeps_start_child_span|apply keeps_start_root_span]. }
  unfold Tracer._update_dogstatsd_constant_tags.
  repeat first
    [ apply keeps_update_span | apply keeps_provider_activate | kstep
    | by intros ? ].
Qed.

Lemma keeps_activate (x : span_or_ctx) :
  keeps (keyed (P:=P)) (fun _ => False) (Tracer.activate x) (fun _ => True).
Proof.
  unfold Tracer.activate. kstep; [|apply keeps_provider_activate].
  destruct x as [span|ctx]; [kstep|].
  eapply keeps_bind; [apply keeps_get|]. intros self0 Hk0.
  kstep. intros self _. by apply (keyed_insert _ _ self0 Hk0).
Qed.

Lemma keeps_del_trace (key : option Z) :
  keeps (keyed (P:=P)) (eq KeyError) (Tracer.del_trace key) (fun _ => True).
Proof.
  intros self Hk. unfold Tracer.del_trace, bind, get.
  destruct (Tracer._traces self !! key); simpl; [|done].
  split; [|done]. by apply keyed_delete.
Qed.

(** What [_finish_span] does once the active binding is settled and the
    trace fetched: the entry it deletes is the one it has just written. *)
Lemma keeps_finish_span_tail (key : option Z) (trace : _Trace.t) :
  _Trace.trace_id trace = key →
  keeps (keyed (P:=P)) (eq IndexError)
    (r <- Tracer.call_trace key trace _Trace.finish_span ;;
     let '(spans, sampled, trace_done) := r in
     (if trace_done then Tracer.del_trace (_Trace.trace_id trace) else ret tt) ;;
     match spans with
     | [] => ret tt
     | _ => if sampled then Tracer.write spans else ret tt
     end)
    (fun _ => True).
Proof.
  intros Hid self Hk. unfold bind at 1. unfold Tracer.call_trace.
  pose proof (finish_span_trace_id trace (Tracer.heap_ self)) as Htid.
  destruct (_Trace.finish_span (trace, Tracer.heap_ self))
    as [[[spans sampled] trace_done] [tr' h']|e [tr' h']] eqn:EF; simpl in Htid.
  - assert (Hk1 : keyed (Tracer.set_heap h'
                     (Tracer.set_traces (<[key := tr']> (Tracer._traces self)) self))).
    { apply (keyed_insert key tr' self Hk). congruence. }
    rewrite Hid. unfold bind at 1.
    destruct trace_done.
    + unfold Tracer.del_trace, bind at 1, get. simpl. rewrite lookup_insert_eq. simpl.
      apply (keeps_state_of keyed (fun _ => True) (Tracer.del_trace key) (fun _ => True))
        in Hk1 as Hk2; [|intros s Hs; specialize (keeps_del_trace key s Hs);
                          by destruct (Tracer.del_trace key s) as [|]; intros []].
      unfold Tracer.del_trace, bind, get in Hk2. simpl in Hk2.
      rewrite lookup_insert_eq in Hk2. simpl in Hk2.
      destruct spans as [|x spans]; [done|].
      destruct sampled; [|done].
      apply (keeps_write (eq IndexError) (x :: spans) _ Hk2).
    + simpl. destruct spans as [|x spans]; [done|].
      destruct sampled; [|done].
      apply (keeps_write (eq IndexError) (x :: spans) _ Hk1).
  - split.
    + apply (keyed_insert key tr' self Hk). congruence.
    + symmetry. by eapply trace_finish_span_exn.
Qed.

Lemma keeps_finish_span (span : nat) :
  keeps (keyed (P:=P)) (eq IndexError) (Tracer._finish_span span) (fun _ => True).
Proof.
  unfold Tracer._finish_span.
  eapply keeps_bind; [apply keeps_get|]. intros self _. cbv zeta.
  kstep.
  { repeat first [apply keeps_provider_activate | kstep]. }
  eapply keeps_bind; [apply keeps_get_or_create_trace|].
  intros trace Hid. by apply keeps_finish_span_tail.
Qed.

End tracer_invariant.

Section tracer_outcomes.
Context {P : Type} `{!ContextProvider P span_or_ctx} `{!ModuleGlobals}.
Implicit Types (self : Tracer.t P).

(** On a keyed table [_finish_span] returns or raises [IndexError] (from
    [finished_spans[0]]), nothing else: [del self._traces[trace.trace_id]]
    finds its entry, so no [KeyError]. The table is keyed afterwards,
    whichever way the call ends. *)
Theorem finish_span_raises_only_IndexError (span : nat) self :
  keyed self →
  match Tracer._finish_span span self with
  | Ok _ self' => keyed self'
  | Raise e self' => e = IndexError ∧ keyed self'
  end.
Proof.
  intros Hk. pose proof (keeps_finish_span span self Hk) as Hf.
  destruct (Tracer._finish_span span self); [tauto|]. by destruct Hf as [? <-].
Qed.

(** From a keyed table, [activate] returns, and [start_span] and [trace]
    return or raise [TypeError] (from the fork handler), nothing else; the
    table is keyed afterwards, whichever way the call ends. *)
Theorem entry_points_keep_table_keyed (rand : Z * Z) (name : string)
    (child_of : option span_or_ctx) (service resource span_type : option string)
    (activate : bool) (x : span_or_ctx) self :
  keyed self →
  match Tracer.start_span rand name child_of service resource span_type activate self with
  | Ok _ self' => keyed self'
  | Raise e self' => e = TypeError ∧ keyed self'
  end
  ∧ match Tracer.trace rand name service resource span_type self with
    | Ok _ self' => keyed self'
    | Raise e self' => e = TypeError ∧ keyed self'
    end
  ∧ ∃ self', Tracer.activate x self = Ok tt self' ∧ keyed self'.
Proof.
  intros Hk. split_and!.
  - pose proof (keeps_start_span rand name child_of service resource span_type
                  activate self Hk) as Hs.
    destruct (Tracer.start_span _ _ _ _ _ _ _ self); [tauto|]. by destruct Hs as [? <-].
  - unfold Tracer.trace, bind, get.
    pose proof (keeps_start_span rand name (Tracer.active self) service resource
                  span_type true self Hk) as Hs.
    destruct (Tracer.start_span _ _ _ _ _ _ _ self); [tauto|]. by destruct Hs as [? <-].
  - pose proof (keeps_activate x self Hk) as Ha.
    destruct (Tracer.activate x self) as [[] self'|]; [|by destruct Ha].
    exists self'. tauto.
Qed.

(** The first statement of [_finish_span] settles the active binding; the
    rest runs on the tracer with that provider. *)
Lemma finish_span_head (span : nat) self :
  Tracer._finish_span span self
  = (trace <- Tracer._get_or_create_trace (Span.trace_id <$> Tracer.heap_ self !! span) ;;
     r <- Tracer.call_trace (Span.trace_id <$> Tracer.heap_ self !! span) trace
            _Trace.finish_span ;;
     let '(spans, sampled, trace_done) := r in
     (if trace_done then Tracer.del_trace (_Trace.trace_id trace) else ret tt) ;;
     match spans with
     | [] => ret tt
     | _ => if sampled then Tracer.write spans else ret tt
     end)
      (Tracer.set_context_provider
         (match Tracer.active self with
          | Some (ASpan r) =>
              if Nat.eqb r span then
                match Tracer.heap_ self !! span ≫= Span._parent with
                | Some p =>
                    if is_finished (Tracer.heap_ self) p
                    then (cp_activate None (Tracer.context_provider self)).1
                    else (cp_activate (Some (ASpan p)) (Tracer.context_provider self)).1
                | None => (cp_activate None (Tracer.context_provider self)).1
                end
              else Tracer.context_provider self
          | _ => Tracer.context_provider self
          end) self).
Proof.
  unfold Tracer._finish_span. unfold bind at 1. unfold get at 1. cbv zeta.
  unfold bind at 1.
  assert (Hself : ∀ self, Tracer.set_context_provider (Tracer.context_provider self) self = self)
    by (by intros []).
  destruct (Tracer.active self) as [[r|ctx]|]; simpl; rewrite ?Hself; try done.
  destruct (Nat.eqb r span); simpl; rewrite ?Hself; try done.
  destruct (Tracer.heap_ self !! span ≫= Span._parent) as [p|]; simpl; [|done].
  by destruct (is_finished (Tracer.heap_ self) p).
Qed.

(** What [_finish_span] does after its first statement touches the trace
    table, the spans and the writer only. *)
Lemma finish_span_tail_frame (I : Tracer.t P -> Prop) (key : option Z) :
  (∀ self m, I self → I (Tracer.set_traces m self)) →
  (∀ self h, I self → I (Tracer.set_heap h self)) →
  (∀ self w, I self → I (Tracer.set_writer w self)) →
  keeps I (fun _ => True)
    (trace <- Tracer._get_or_create_trace key ;;
     r <- Tracer.call_trace key trace _Trace.finish_span ;;
     let '(spans, sampled, trace_done) := r in
     (if trace_done then Tracer.del_trace (_Trace.trace_id trace) else ret tt) ;;
     match spans with
     | [] => ret tt
     | _ => if sampled then Tracer.write spans else ret tt
     end)
    (fun _ => True).
Proof.
  intros Htraces Hheap Hwriter.
  kstep.
  { unfold Tracer._get_or_create_trace. repeat kstep. intros ? ?. by apply Htraces. }
  kstep.
  { intros self Hs. unfold Tracer.call_trace.
    destruct (_Trace.finish_span _) as [r [tr' h']|e [tr' h']];
      (split; [by apply Hheap, Htraces|done]). }
  destruct a0 as [[spans sampled] trace_done].
  kstep.
  { destruct trace_done; [|kstep]. unfold Tracer.del_trace.
    kstep; [kstep|]. kstep; [|by apply keeps_raise].
    kstep. intros ? ?. by apply Htraces. }
  destruct spans as [|x spans]; [kstep|]. destruct sampled; [|kstep].
  unfold Tracer.write. repeat kstep. intros ? ?. by apply Hwriter.
Qed.

(** The rest of [_finish_span] leaves the provider alone. *)
Lemma finish_span_tail_provider (key : option Z) self :
  Tracer.context_provider
    (state_of
       ((trace <- Tracer._get_or_create_trace key ;;
         r <- Tracer.call_trace key trace _Trace.finish_span ;;
         let '(spans, sampled, trace_done) := r in
         (if trace_done then Tracer.del_trace (_Trace.trace_id trace) else ret tt) ;;
         match spans with
         | [] => ret tt
         | _ => if sampled then Tracer.write spans else ret tt
         end) self))
  = Tracer.context_provider self.
Proof.
  apply (keeps_state_of
           (fun s => Tracer.context_provider s = Tracer.context_provider self)
           (fun _ => True) _ (fun _ => True) self); [|done].
  by apply finish_span_tail_frame.
Qed.

(** A span of a trace that is not sampled never reaches the writer: when the
    trace registered under the span's identifier has [sampled = False],
    [_finish_span] leaves the writer as it is, whether it returns or raises. *)
Theorem finish_span_unsampled_not_written (span : nat) (s : Span.t) (trace : _Trace.t) self :
  Tracer.heap_ self !! span = Some s →
  Tracer._traces self !! Some (Span.trace_id s) = Some trace →
  _Trace.sampled trace = false →
  Tracer.writer (state_of (Tracer._finish_span span self)) = Tracer.writer self.
Proof.
  intros Hs Hl Hsam. rewrite finish_span_head, Hs. simpl.
  unfold Tracer._get_or_create_trace, Tracer.call_trace, Tracer.del_trace,
    bind, get, modify, ret, raise. simpl. rewrite Hl. simpl.
  unfold _Trace.finish_span.
  destruct (_Trace.flush_triggered _); [|done].
  destruct (List.filter _ _) as [|c rest]; [done|]. simpl. rewrite Hsam.
  destruct (_Trace.len _ =? 0); simpl; [|done].
  by destruct (<[_ := _]> _ !! _).
Qed.

End tracer_outcomes.

Section gevent_tracer.
Context `{!ModuleGlobals}.
Implicit Types (self : Tracer.t (GeventContextProvider.t span_or_ctx)).

Lemma gevent_active_activate (x : option span_or_ctx) (g : nat)
    (w : GeventContextProvider.t span_or_ctx) :
  GeventContextProvider.getcurrent w = Some g →
  cp_active (cp_activate x w).1 = x.
Proof.
  intros Hg. simpl.
  unfold GeventContextProvider.active, GeventContextProvider._get_current_context,
    GeventContextProvider.activate. rewrite Hg. simpl.
  unfold GeventContextProvider.getattr. simpl. rewrite Hg.
  rewrite lookup_insert_eq. simpl. by rewrite lookup_insert_eq.
Qed.

(** Inside a greenlet, finishing the active span hands the active binding to
    its parent when the parent is still open, and to nothing otherwise;
    finishing a span that is not the active one leaves the binding alone.
    This holds also when [_finish_span] raises. *)
Theorem finish_span_reactivates_parent (span g : nat) self :
  GeventContextProvider.getcurrent (Tracer.context_provider self) = Some g →
  (Tracer.active self = Some (ASpan span) →
   Tracer.active (state_of (Tracer._finish_span span self))
   = match Tracer.heap_ self !! span ≫= Span._parent with
     | Some p => if is_finished (Tracer.heap_ self) p then None else Some (ASpan p)
     | None => None
     end)
  ∧ (Tracer.active self ≠ Some (ASpan span) →
     Tracer.active (state_of (Tracer._finish_span span self)) = Tracer.active self).
Proof.
  intros Hg. rewrite finish_span_head. unfold Tracer.active.
  rewrite finish_span_tail_provider.
  cbn [Tracer.context_provider Tracer.set_context_provider]. split.
  - intros Ha. rewrite Ha, Nat.eqb_refl.
    destruct (Tracer.heap_ self !! span ≫= Span._parent) as [p|].
    + destruct (is_finished (Tracer.heap_ self) p);
        by rewrite (gevent_active_activate _ g).
    + by rewrite (gevent_active_activate _ g).
  - intros Ha.
    destruct (cp_active (Tracer.context_provider self)) as [[r|ctx]|] eqn:Hact;
      try done.
    destruct (Nat.eqb r span) eqn:Hr; [|done].
    apply Nat.eqb_eq in Hr. by subst.
Qed.

End gevent_tracer.

Section outcomes_examples.
#[local] Existing Instance default_globals.

Lemma keyed_tracer0 : keyed tracer0.
Proof. intros key trace Hl. simpl in Hl. by rewrite lookup_empty in Hl. Qed.

Lemma keyed_ex_parent : keyed ex_parent.
Proof.
  apply (keeps_state_of keyed (eq TypeError) _ (fun _ => True) tracer0
           (keeps_start_span _ _ _ _ _ _ _)), keyed_tracer0.
Qed.

(** Finishing the open root span of [ex_parent]. *)
Lemma finish_span_raises_only_IndexError_witness :
  match Tracer._finish_span 0%nat ex_parent with
  | Ok _ self' => keyed self'
  | Raise e self' => e = IndexError ∧ keyed self'
  end.
Proof.
  apply (finish_span_raises_only_IndexError 0%nat ex_parent), keyed_ex_parent.
Defined.

(** The entry points on a new tracer. *)
Lemma entry_points_keep_table_keyed_witness :
  match Tracer.start_span (42, 7) "web.request" None None None None true tracer0 with
  | Ok _ self' => keyed self'
  | Raise e self' => e = TypeError ∧ keyed self'
  end
  ∧ match Tracer.trace (42, 7) "web.request" None None None tracer0 with
    | Ok _ self' => keyed self'
    | Raise e self' => e = TypeError ∧ keyed self'
    end
  ∧ ∃ self',
      Tracer.activate (ACtx (Context.mk (Some 42) (Some 7) None None)) tracer0 = Ok tt self'
      ∧ keyed self'.
Proof.
  apply (entry_points_keep_table_keyed (42, 7) "web.request" None None None None true
           (ACtx (Context.mk (Some 42) (Some 7) None None)) tracer0), keyed_tracer0.
Defined.

(** The finished root span of the dropped trace of [ex_dropped]. *)
Lemma finish_span_unsampled_not_written_witness :
  Tracer.writer (state_of (Tracer._finish_span 0%nat ex_dropped)) = Tracer.writer ex_dropped.
Proof.
  destruct (Tracer.heap_ ex_dropped !! 0%nat) as [s|] eqn:Hs;
    [|vm_compute in Hs; discriminate].
  assert (Hid : Span.trace_id s = 42).
  { pose proof Hs as Hs'. vm_compute in Hs'. by injection Hs' as <-. }
  destruct (Tracer._traces ex_dropped !! Some 42) as [trace|] eqn:Hl;
    [|vm_compute in Hl; discriminate].
  apply (finish_span_unsampled_not_written 0%nat s trace ex_dropped Hs).
  - by rewrite Hid.
  - pose proof Hl as Hl'. vm_compute in Hl'. by injection Hl' as <-.
Defined.

(** Finishing the child span of [ex_nested] makes its parent active again. *)
Lemma finish_span_reactivates_parent_witness :
  Tracer.active (state_of (Tracer._finish_span 1%nat ex_nested)) = Some (ASpan 0%nat).
Proof.
  destruct (finish_span_reactivates_parent 1%nat 0%nat ex_nested) as [Hactive _].
  - vm_compute. reflexivity.
  - rewrite Hactive; vm_compute; reflexivity.
Defined.

End outcomes_examples.

(** ** Child spans *)

Section tracer_children.
Context {P : Type} `{!ContextProvider P span_or_ctx} `{!ModuleGlobals}.
Implicit Types (self : Tracer.t P).

Lemma tagged_refl (s : Span.t) : tagged s s.
Proof. exists (Span.meta s). by destruct s. Qed.

Lemma tagged_set_meta (k v : string) (s s0 : Span.t) :
  tagged s s0 → tagged (Span.set_meta k v s) s0.
Proof. intros [m ->]. by eexists. Qed.

Lemma tagged_set_tags (tags : gmap string string) (s s0 : Span.t) :
  tagged s s0 → tagged (Span.set_tags tags s) s0.
Proof. intros [m ->]. by eexists. Qed.

Lemma started_update_span traces (p : P) w h (span : nat) (s0 : Span.t)
    (f : Span.t -> Span.t) self :
  (∀ s, tagged s s0 → tagged (f s) s0) →
  started traces p w h span s0 self →
  started traces p w h span s0
    (Tracer.set_heap (alter f span (Tracer.heap_ self)) self).
Proof.
  intros Hf (Ht & Hp & Hw & Hh & s & Hs & Htag). split_and!; try done.
  - intros r Hr. simpl. rewrite lookup_alter_ne by done. by apply Hh.
  - exists (f s). simpl. rewrite lookup_alter_eq, Hs. split; [done|by apply Hf].
Qed.

(** The child branch allocates the span and registers it in the trace of
    its parent, which it creates when the table does not have it. *)
Lemma start_child_span_returns (rand : Z * Z) (name : string)
    (child_of : option span_or_ctx) (tid : Z) (parent_id : option Z)
    (parent : option nat) (service resource span_type : option string) self :
  returns
    (Tracer.start_child_span rand name child_of tid parent_id parent
       service resource span_type) self
    (fun span self' =>
       span = fresh (dom (Tracer.heap_ self))
       ∧ Tracer.heap_ self'
         = <[span := Span.mk name service resource span_type tid rand.2 parent_id
                       ∅ ∅ false parent]> (Tracer.heap_ self)
       ∧ Tracer._traces self' !! Some tid
         = Some (child_trace child_of span
                   (default (_Trace.new (Some tid) None None)
                      (Tracer._traces self !! Some tid)))
       ∧ (∀ k, k ≠ Some tid → Tracer._traces self' !! k = Tracer._traces self !! k)
       ∧ Tracer.context_provider self' = Tracer.context_provider self
       ∧ Tracer.writer self' = Tracer.writer self).
Proof.
  unfold Tracer.start_child_span, Tracer.alloc, Tracer._get_or_create_trace,
    Tracer.update_trace.
  destruct parent as [p|]; cbv zeta;
    (destruct child_of as [[c|[ct cs [prio|] [origin|]]]|]; simpl;
     repeat (step; cbv beta); simpl in *;
     (split_and!; try done;
      [ rewrite ?lookup_alter_eq, ?lookup_insert_eq;
        repeat match goal with Hl : _ !! _ = _ |- _ => rewrite Hl end; done
      | intros k Hk; by rewrite ?lookup_alter_ne, ?lookup_insert_ne by done ])).
Qed.


(** [start_span] under a parent with a non-zero trace identifier, in the
    process the tracer was last used in. *)
Lemma start_span_child_returns (rand : Z * Z) (name : string)
    (child_of : option span_or_ctx) (service resource span_type : option string)
    (activate : bool) (tid : Z) self :
  Tracer._pid self = Tracer.getpid self →
  child_of ≫= Tracer.active_trace_id (Tracer.heap_ self) = Some tid →
  tid ≠ 0 →
  let parent := match child_of with
                | Some (ASpan p) => Some p
                | _ => None
                end in
  returns (Tracer.start_span rand name child_of service resource span_type activate) self
    (fun span self' =>
       span = fresh (dom (Tracer.heap_ self))
       ∧ started (Tracer._traces self')
           (if activate
            then (cp_activate (Some (ASpan span)) (Tracer.context_provider self)).1
            else Tracer.context_provider self)
           (Tracer.writer self) (Tracer.heap_ self) span
           (Span.mk name (Tracer.choose_service service parent self) resource span_type
              tid rand.2 (child_of ≫= Tracer.active_span_id (Tracer.heap_ self))
              ∅ ∅ false parent)
           self'
       ∧ Tracer._traces self' !! Some tid
         = Some (child_trace child_of span
                   (default (_Trace.new (Some tid) None None)
                      (Tracer._traces self !! Some tid)))
       ∧ (∀ k, k ≠ Some tid → Tracer._traces self' !! k = Tracer._traces self !! k)).
Proof.
  intros Hpid Htid Hnz parent.
  unfold Tracer.start_span. apply returns_bind. unfold returns at 1.
  rewrite (check_new_process_same_pid self Hpid).
  step. step. cbv beta zeta. rewrite Htid.
  replace (truthy_int (Some tid)) with true
    by (symmetry; simpl; by apply negb_true_iff, Z.eqb_neq).
  simpl default. fold parent. step.
  eapply returns_mono; [apply start_child_span_returns|].
  intros span self2 (Hspan & Hheap & Hl & Hother & Hp & Hw). cbv beta.
  set (s0 := Span.mk name (Tracer.choose_service service parent self) resource span_type
               tid rand.2 (child_of ≫= Tracer.active_span_id (Tracer.heap_ self))
               ∅ ∅ false parent) in *.
  set (p1 := if activate
             then (cp_activate (Some (ASpan span)) (Tracer.context_provider self)).1
             else Tracer.context_provider self).
  assert (Hfresh : Tracer.heap_ self !! span = None).
  { rewrite Hspan. apply not_elem_of_dom, is_fresh. }
  step.
  apply (returns_mono _ _ (fun _ self3 =>
           started (Tracer._traces self2) p1 (Tracer.writer self) (Tracer.heap_ self)
             span s0 self3)).
  { assert (Hst : ∀ p, started (Tracer._traces self2) p (Tracer.writer self)
                         (Tracer.heap_ self) span s0
                         (Tracer.set_context_provider p self2)).
    { intros p. split_and!; try done; simpl; rewrite Hheap.
      - intros r Hr. by rewrite lookup_insert_ne.
      - exists s0. rewrite lookup_insert_eq. split; [done|apply tagged_refl]. }
    unfold Tracer.provider_activate, p1. destruct activate.
    - step. rewrite Hp. apply Hst.
    - step. rewrite <- Hp. specialize (Hst (Tracer.context_provider self2)).
      replace (Tracer.set_context_provider (Tracer.context_provider self2) self2)
        with self2 in Hst by (by destruct self2).
      exact Hst. }
  intros [] self3 Hst. cbv beta.
  revert Hst. generalize self3. clear self3.
  unfold Tracer.update_span, Tracer._update_dogstatsd_constant_tags.
  intros self3 Hst.
  repeat
    lazymatch goal with
    | |- returns (bind _ _) _ _ => apply returns_bind
    | |- returns (if ?b then _ else _) _ _ => destruct b
    | |- returns get _ _ => apply returns_get; cbv beta
    | Hr : started _ _ _ _ _ _ ?st |- returns (modify _) ?st _ =>
        apply (returns_modify_inv _ _ _ _ Hr);
        [ clear; intros st' Hr';
          first [ apply started_update_span;
                  [intros ? ?; first [by apply tagged_set_tags|by apply tagged_set_meta]
                  |exact Hr']
                | exact Hr' ]
        | clear Hr; intros ? Hr ]
    | |- returns (ret tt) _ (fun _ _ => _) => apply returns_ret; cbv beta
    end.
  all: apply returns_ret; split; [done|].
  all: pose proof Hst as (Ht & _); rewrite Ht; by split_and!.
Qed.


(** A span started under a parent with a non-zero trace identifier, in the
    process the tracer was last used in: [start_span] returns a new span of
    the parent's trace, with the parent's identifier as [parent_id], not
    finished, linked to the parent when it is a local span; the span is
    appended to the trace registered under that identifier (created with the
    defaults when missing), whose sampling decision and finished count are
    not touched, and which takes the priority and the origin of a parent
    [Context] that has them. The other traces, the other spans and the
    writer are left alone, and the span is activated iff [activate] is set. *)
Theorem start_span_child_joins_trace (rand : Z * Z) (name : string)
    (child_of : option span_or_ctx) (service resource span_type : option string)
    (activate : bool) (tid : Z) self :
  Tracer._pid self = Tracer.getpid self →
  child_of ≫= Tracer.active_trace_id (Tracer.heap_ self) = Some tid →
  tid ≠ 0 →
  ∃ span self' s,
    Tracer.start_span rand name child_of service resource span_type activate self
    = Ok span self'
    ∧ Tracer.heap_ self !! span = None
    ∧ Tracer.heap_ self' !! span = Some s
    ∧ Span.trace_id s = tid
    ∧ Span.span_id s = rand.2
    ∧ Span.parent_id s = child_of ≫= Tracer.active_span_id (Tracer.heap_ self)
    ∧ Span._parent s = match child_of with
                       | Some (ASpan p) => Some p
                       | _ => None
                       end
    ∧ Span.finished s = false
    ∧ (∀ r, r ≠ span → Tracer.heap_ self' !! r = Tracer.heap_ self !! r)
    ∧ Tracer._traces self' !! Some tid
      = Some (child_trace child_of span
                (default (_Trace.new (Some tid) None None)
                   (Tracer._traces self !! Some tid)))
    ∧ (∀ k, k ≠ Some tid → Tracer._traces self' !! k = Tracer._traces self !! k)
    ∧ Tracer.writer self' = Tracer.writer self
    ∧ Tracer.context_provider self'
      = if activate
        then (cp_activate (Some (ASpan span)) (Tracer.context_provider self)).1
        else Tracer.context_provider self.
Proof.
  intros Hpid Htid Hnz.
  pose proof (start_span_child_returns rand name child_of service resource span_type
                activate tid self Hpid Htid Hnz) as Hr.
  apply returns_iff in Hr
    as (span & self' & Hr & Hspan & (_ & Hp & Hw & Hh & s & Hs & [m Hm]) & Hl & Hother).
  exists span, self', s. split; [exact Hr|].
  split; [rewrite Hspan; apply not_elem_of_dom, is_fresh|].
  split; [exact Hs|]. rewrite Hm. simpl. by split_and!.
Qed.

End tracer_children.

Section gevent_children.
Context `{!ModuleGlobals}.
Implicit Types (self : Tracer.t (GeventContextProvider.t span_or_ctx)).

Lemma gevent_getcurrent_activate (x : option span_or_ctx)
    (w : GeventContextProvider.t span_or_ctx) :
  GeventContextProvider.getcurrent (cp_activate x w).1 = GeventContextProvider.getcurrent w.
Proof.
  simpl. unfold GeventContextProvider.activate.
  by destruct (GeventContextProvider.getcurrent w) eqn:Hg.
Qed.

(** Continuing a distributed trace inside a greenlet: after
    [activate(Context(trace_id, span_id, priority, origin))] with a non-zero
    [trace_id], [trace(name)] returns a span that is the active span and the
    root span of the active trace, whose parent is the context's span, and
    [get_call_context()] then carries the context's trace identifier,
    sampling priority and origin with the new span's identifier. *)
Theorem trace_continues_context (rand : Z * Z) (name : string)
    (service resource span_type : option string) (ctx : Context.t) (g : nat) (tid : Z) self :
  GeventContextProvider.getcurrent (Tracer.context_provider self) = Some g →
  Tracer._pid self = Tracer.getpid self →
  Context.trace_id ctx = Some tid →
  tid ≠ 0 →
  ∃ self1 span self2,
    Tracer.activate (ACtx ctx) self = Ok tt self1
    ∧ Tracer.trace rand name service resource span_type self1 = Ok span self2
    ∧ Tracer.active_span self2 = Some span
    ∧ Tracer.active_root_span self2 = Some span
    ∧ Span.parent_id <$> Tracer.heap_ self2 !! span = Some (Context.span_id ctx)
    ∧ Tracer.get_call_context self2
      = Context.mk (Some tid) (Some rand.2) (Context.sampling_priority ctx)
          (Context.dd_origin ctx).
Proof.
  intros Hg Hpid Hctx Hnz.
  set (self1 :=
         Tracer.set_context_provider
           (cp_activate (Some (ACtx ctx)) (Tracer.context_provider self)).1
           (Tracer.set_traces
              (<[Context.trace_id ctx :=
                   _Trace.new (Context.trace_id ctx) (Context.sampling_priority ctx)
                     (Context.dd_origin ctx)]> (Tracer._traces self)) self)).
  assert (Hactivate : Tracer.activate (ACtx ctx) self = Ok tt self1) by reflexivity.
  assert (Hg1 : GeventContextProvider.getcurrent (Tracer.context_provider self1) = Some g).
  { unfold self1. cbn [Tracer.context_provider Tracer.set_context_provider].
    by rewrite gevent_getcurrent_activate. }
  assert (Hact : Tracer.active self1 = Some (ACtx ctx)).
  { unfold Tracer.active, self1. cbn [Tracer.context_provider Tracer.set_context_provider].
    by apply (gevent_active_activate _ g). }
  assert (Hl1 : Tracer._traces self1 !! Some tid
                = Some (_Trace.new (Some tid) (Context.sampling_priority ctx)
                          (Context.dd_origin ctx))).
  { unfold self1. simpl. rewrite Hctx. apply lookup_insert_eq. }
  pose proof (start_span_child_returns rand name (Some (ACtx ctx)) service resource
                span_type true tid self1 Hpid Hctx Hnz) as Hr.
  apply returns_iff in Hr
    as (span & self2 & Hr & Hspan & (_ & Hp & Hw & Hh & s & Hs & [m ->]) & Hl & Hother).
  assert (Hactive : Tracer.active self2 = Some (ASpan span)).
  { unfold Tracer.active. rewrite Hp. by apply (gevent_active_activate _ g). }
  rewrite Hl1 in Hl. simpl in Hl.
  exists self1, span, self2. split; [exact Hactivate|].
  split; [unfold Tracer.trace, bind, get; by rewrite Hact|].
  assert (Hnz' : (tid =? 0) = false) by (by apply Z.eqb_neq).
  split_and!.
  - unfold Tracer.active_span. by rewrite Hactive.
  - unfold Tracer.active_root_span, Tracer._active_trace. rewrite Hactive. simpl.
    rewrite Hs. simpl. rewrite Hnz'. simpl. unfold Tracer._get_trace. by rewrite Hl.
  - by rewrite Hs.
  - unfold Tracer.get_call_context, Tracer._get_trace. rewrite Hactive, Hs. simpl.
    rewrite Hl. simpl.
    by destruct (Context.sampling_priority ctx), (Context.dd_origin ctx).
Qed.

(** The automatic parenting of [trace], inside a greenlet: while an open span
    of a trace with a non-zero identifier is active, [trace(name)] returns a
    new span that becomes the active one and has the former as its parent,
    and finishing the new span makes the former the active span again. *)
Theorem trace_then_finish_restores_parent (rand : Z * Z) (name : string)
    (service resource span_type : option string) (p g : nat) (sp : Span.t) self :
  GeventContextProvider.getcurrent (Tracer.context_provider self) = Some g →
  Tracer._pid self = Tracer.getpid self →
  Tracer.active self = Some (ASpan p) →
  Tracer.heap_ self !! p = Some sp →
  Span.trace_id sp ≠ 0 →
  Span.finished sp = false →
  ∃ child self1,
    Tracer.trace rand name service resource span_type self = Ok child self1
    ∧ child ≠ p
    ∧ Tracer.active_span self1 = Some child
    ∧ Span._parent <$> Tracer.heap_ self1 !! child = Some (Some p)
    ∧ Span.trace_id <$> Tracer.heap_ self1 !! child = Some (Span.trace_id sp)
    ∧ Tracer.active_span (state_of (Span_finish child self1)) = Some p.
Proof.
  intros Hg Hpid Hact Hsp Hnz Hopen.
  assert (Htid : Some (ASpan p) ≫= Tracer.active_trace_id (Tracer.heap_ self)
                 = Some (Span.trace_id sp)) by (simpl; by rewrite Hsp).
  pose proof (start_span_child_returns rand name (Some (ASpan p)) service resource
                span_type true (Span.trace_id sp) self Hpid Htid Hnz) as Hr.
  apply returns_iff in Hr
    as (child & self1 & Hr & Hchild & (_ & Hp & Hw & Hh & s & Hs & [m ->]) & Hl & Hother).
  assert (Hne : child ≠ p).
  { intros ->. assert (Tracer.heap_ self !! p = None) as Hnone
      by (rewrite Hchild; apply not_elem_of_dom, is_fresh).
    by rewrite Hsp in Hnone. }
  assert (Hactive : Tracer.active self1 = Some (ASpan child)).
  { unfold Tracer.active. rewrite Hp. by apply (gevent_active_activate _ g). }
  exists child, self1.
  split; [unfold Tracer.trace, bind, get; by rewrite Hact|]. split_and!; try done.
  - unfold Tracer.active_span. by rewrite Hactive.
  - by rewrite Hs.
  - by rewrite Hs.
  - unfold Span_finish, bind, get, is_finished. rewrite Hs. simpl.
    unfold Tracer.update_span, modify.
    rewrite finish_span_head. unfold Tracer.active_span, Tracer.active.
    rewrite finish_span_tail_provider.
    cbn [Tracer.context_provider Tracer.set_context_provider Tracer.set_heap Tracer.heap_].
    unfold Tracer.active in Hactive. rewrite Hactive, Nat.eqb_refl.
    rewrite lookup_alter_eq, Hs. simpl.
    unfold is_finished. rewrite lookup_alter_ne by done.
    rewrite (Hh p) by done. rewrite Hsp. simpl. rewrite Hopen.
    pose proof (gevent_active_activate (Some (ASpan p)) g
                  (Tracer.context_provider self1)) as Hga.
    simpl in Hga. rewrite Hga; [done|].
    by rewrite Hp, gevent_getcurrent_activate.
Qed.

End gevent_children.

Section children_examples.
#[local] Existing Instance default_globals.

(** A child of the open root span of [ex_parent]. *)
Lemma start_span_child_joins_trace_witness :
  ∃ span self' s trace,
    Tracer.start_span (43, 8) "query" (Some (ASpan 0%nat)) None None None true ex_parent
    = Ok span self'
    ∧ Tracer.heap_ self' !! span = Some s
    ∧ Span.trace_id s = 42
    ∧ Span.parent_id s = Some 7
    ∧ Span._parent s = Some 0%nat
    ∧ Tracer._traces self' !! Some 42 = Some trace
    ∧ _Trace._spans trace = [0%nat; span].
Proof.
  destruct (start_span_child_joins_trace (43, 8) "query" (Some (ASpan 0%nat))
              None None None true 42 ex_parent)
    as (span & self' & s & Hr & _ & Hs & Hid & _ & Hpid & Hpar & _ & _ & Hl & _).
  - vm_compute. reflexivity.
  - vm_compute. reflexivity.
  - lia.
  - exists span, self', s. eexists. split_and!; try done.
Defined.

(** A new tracer continues the trace 42 of a request sent by synthetic traffic. *)
Lemma trace_continues_context_witness :
  ∃ self1 span self2,
    Tracer.activate
      (ACtx (Context.mk (Some 42) (Some 7) (Some 2) (Some "synthetics"%string))) tracer0
    = Ok tt self1
    ∧ Tracer.trace (43, 8) "web.request" None None None self1 = Ok span self2
    ∧ Tracer.active_span self2 = Some span
    ∧ Tracer.get_call_context self2
      = Context.mk (Some 42) (Some 8) (Some 2) (Some "synthetics"%string).
Proof.
  destruct (trace_continues_context (43, 8) "web.request" None None None
              (Context.mk (Some 42) (Some 7) (Some 2) (Some "synthetics"%string))
              0%nat 42 tracer0)
    as (self1 & span & self2 & Ha & Ht & Hactive & _ & _ & Hctx).
  - reflexivity.
  - reflexivity.
  - reflexivity.
  - lia.
  - by exists self1, span, self2.
Defined.

(** [child = tracer.trace("query")] under the root span of [ex_parent], then
    [child.finish()]: the root span is active again. *)
Lemma trace_then_finish_restores_parent_witness :
  ∃ child self1,
    Tracer.trace (43, 8) "query" None None None ex_parent = Ok child self1
    ∧ Tracer.active_span self1 = Some child
    ∧ Tracer.active_span (state_of (Span_finish child self1)) = Some 0%nat.
Proof.
  destruct (Tracer.heap_ ex_parent !! 0%nat) as [sp|] eqn:Hsp;
    [|vm_compute in Hsp; discriminate].
  assert (Hid : Span.trace_id sp = 42 ∧ Span.finished sp = false).
  { pose proof Hsp as Hsp'. vm_compute in Hsp'. by injection Hsp' as <-. }
  destruct (trace_then_finish_restores_parent (43, 8) "query" None None None
              0%nat 0%nat sp ex_parent)
    as (child & self1 & Ht & _ & Hactive & _ & _ & Hback).
  - vm_compute. reflexivity.
  - vm_compute. reflexivity.
  - vm_compute. reflexivity.
  - exact Hsp.
  - destruct Hid as [-> _]. lia.
  - by destruct Hid.
  - by exists child, self1.
Defined.

End children_examples.

(** ** Tags of a new span *)

Section tracer_tags.
Context {P : Type} `{!ContextProvider P span_or_ctx} `{!ModuleGlobals}.
Implicit Types (self : Tracer.t P).

Lemma returns_update_span_meta (span : nat) (f : Span.t -> Span.t)
    (Q Q' : gmap string string -> Prop) self :
  span_meta span Q self →
  (∀ s, Q (Span.meta s) → Q' (Span.meta (f s))) →
  returns (Tracer.update_span span f) self (fun _ self' => span_meta span Q' self').
Proof.
  intros (s & Hs & HQ) Hf. unfold Tracer.update_span. step.
  exists (f s). simpl. rewrite lookup_alter_eq, Hs. split; [done|by apply Hf].
Qed.

Lemma span_meta_mono (span : nat) (Q Q' : gmap string string -> Prop) self :
  span_meta span Q self → (∀ m, Q m → Q' m) → span_meta span Q' self.
Proof. intros (s & Hs & HQ) HQ'. exists s. auto. Qed.

(** Once the fork handler has returned, [start_span] returns a span that
    carries the tracer's tags and [config.env]. *)
Lemma start_span_tags_returns (rand : Z * Z) (name : string)
    (child_of : option span_or_ctx) (service resource span_type : option string)
    (activate : bool) self self1 :
  Tracer._check_new_process self = Ok tt self1 →
  returns (Tracer.start_span rand name child_of service resource span_type activate) self
    (fun span self' =>
       span_meta span
         (fun m =>
            (∀ k v, Tracer.tags self1 !! k = Some v →
               (k = ENV_KEY → truthy_str (Config.env (Tracer.config self1)) = false) →
               (k = VERSION_KEY → truthy_str (Config.version (Tracer.config self1)) = false) →
               m !! k = Some v)
            ∧ (truthy_str (Config.env (Tracer.config self1)) = true →
               m !! ENV_KEY = Config.env (Tracer.config self1)))
         self').
Proof.
  intros Hcheck. unfold Tracer.start_span. apply returns_bind. unfold returns at 1.
  rewrite Hcheck. step. step. cbv beta zeta. step.
  apply (returns_mono _ _ (fun span self2 => span_meta span (fun _ => True) self2)).
  { destruct (truthy_int _).
    - eapply returns_mono; [apply start_child_span_returns|].
      intros span self2 (_ & Hheap & _). cbv beta. eexists. rewrite Hheap.
      by rewrite lookup_insert_eq.
    - eapply returns_mono; [apply start_root_span_returns|].
      intros span self2 (trace & Hheap & _). cbv beta. by eexists. }
  intros span self2 Hlive. cbv beta. step.
  apply (returns_mono _ _ (fun _ self3 => span_meta span (fun _ => True) self3)).
  { unfold Tracer.provider_activate. destruct activate; by step. }
  intros [] self3 Hlive3. cbv beta. step.
  apply (returns_mono _ _ (fun _ self4 =>
           span_meta span
             (fun m => ∀ k v, Tracer.tags self1 !! k = Some v → m !! k = Some v) self4)).
  { case_bool_decide as Htags.
    - apply (returns_update_span_meta _ _ _ _ _ Hlive3).
      intros s _ k v Hk. simpl. by apply lookup_union_Some_l.
    - step. apply (span_meta_mono _ _ _ _ Hlive3). intros m _ k v.
      rewrite Htags. by rewrite lookup_empty. }
  intros [] self4 Htagged. cbv beta. step.
  apply (returns_mono _ _ (fun _ self5 =>
           span_meta span
             (fun m =>
                (∀ k v, Tracer.tags self1 !! k = Some v →
                   (k = ENV_KEY → truthy_str (Config.env (Tracer.config self1)) = false) →
                   m !! k = Some v)
                ∧ (truthy_str (Config.env (Tracer.config self1)) = true →
                   m !! ENV_KEY = Config.env (Tracer.config self1))) self5)).
  { destruct (truthy_str (Config.env (Tracer.config self1))) eqn:Henv.
    - apply (returns_update_span_meta _ _ _ _ _ Htagged).
      intros s Hs. simpl. split.
      + intros k v Hk Hne. rewrite lookup_insert_ne; [by apply Hs|].
        intros <-. by specialize (Hne eq_refl).
      + intros _. rewrite lookup_insert_eq.
        by destruct (Config.env (Tracer.config self1)).
    - step. apply (span_meta_mono _ _ _ _ Htagged). intros m Hm. split; [|done].
      intros k v Hk _. by apply Hm. }
  intros [] self5 Henv. cbv beta. step.
  apply (returns_mono _ _ (fun _ self6 =>
           span_meta span
             (fun m =>
                (∀ k v, Tracer.tags self1 !! k = Some v →
                   (k = ENV_KEY → truthy_str (Config.env (Tracer.config self1)) = false) →
                   (k = VERSION_KEY →
                    truthy_str (Config.version (Tracer.config self1)) = false) →
                   m !! k = Some v)
                ∧ (truthy_str (Config.env (Tracer.config self1)) = true →
                   m !! ENV_KEY = Config.env (Tracer.config self1))) self6)).
  { destruct (truthy_str (Config.version (Tracer.config self1))) eqn:Hversion.
    - step. step. cbv beta zeta.
      match goal with |- returns (if ?b then _ else _) _ _ => destruct b end.
      + apply (returns_update_span_meta _ _ _ _ _ Henv).
        intros s [Hs1 Hs2]. simpl. split.
        * intros k v Hk Hne Hnv. rewrite lookup_insert_ne; [by apply Hs1|].
          intros <-. by specialize (Hnv eq_refl).
        * intros He. rewrite lookup_insert_ne by done. by apply Hs2.
      + step. apply (span_meta_mono _ _ _ _ Henv). intros m [Hm1 Hm2].
        split; [|done]. intros k v Hk Hne _. by apply Hm1.
    - step. apply (span_meta_mono _ _ _ _ Henv). intros m [Hm1 Hm2].
      split; [|done]. intros k v Hk Hne _. by apply Hm1. }
  intros [] self6 Hfinal. cbv beta. step. step. cbv beta. step.
  apply (returns_mono _ _ (fun _ self7 => Tracer.heap_ self7 = Tracer.heap_ self6)).
  { unfold Tracer._update_dogstatsd_constant_tags.
    match goal with |- returns (if ?b then _ else _) _ _ => destruct b end;
      repeat step; done. }
  intros [] self7 Hheap. cbv beta. step.
  destruct Hfinal as (s & Hs & HQ). exists s. by rewrite Hheap.
Qed.

(** Every span [start_span] returns carries the tracer-level tags and
    [config.env]: a tag of [self.tags] is on the span unless its key is
    ["env"] and [config.env] is set, or ["version"] and [config.version] is
    set; when [config.env] is set the span's ["env"] tag is [config.env]. *)
Theorem start_span_applies_tracer_tags (rand : Z * Z) (name : string)
    (child_of : option span_or_ctx) (service resource span_type : option string)
    (activate : bool) self :
  Tracer._pid self = Tracer.getpid self ∨ Tracer._traces self = ∅ →
  ∃ span self' s,
    Tracer.start_span rand name child_of service resource span_type activate self
    = Ok span self'
    ∧ Tracer.heap_ self' !! span = Some s
    ∧ (∀ k v, Tracer.tags self !! k = Some v →
         (k = ENV_KEY → truthy_str (Config.env (Tracer.config self)) = false) →
         (k = VERSION_KEY → truthy_str (Config.version (Tracer.config self)) = false) →
         Span.meta s !! k = Some v)
    ∧ (truthy_str (Config.env (Tracer.config self)) = true →
       Span.meta s !! ENV_KEY = Config.env (Tracer.config self)).
Proof.
  intros Hok.
  assert (∃ self1, Tracer._check_new_process self = Ok tt self1
                   ∧ Tracer.tags self1 = Tracer.tags self
                   ∧ Tracer.config self1 = Tracer.config self)
    as (self1 & Hcheck & Htags & Hconfig).
  { destruct (decide (Tracer._pid self = Tracer.getpid self)) as [Hpid|Hpid].
    - exists self. by rewrite (check_new_process_same_pid self Hpid).
    - destruct Hok as [?|Hnone]; [done|]. eexists.
      by rewrite (check_new_process_no_trace self Hpid Hnone). }
  pose proof (start_span_tags_returns rand name child_of service resource span_type
                activate self self1 Hcheck) as Hr.
  apply returns_iff in Hr as (span & self' & Hr & s & Hs & Hm).
  rewrite Htags, Hconfig in Hm. by exists span, self', s.
Qed.

End tracer_tags.

Section tags_examples.
#[local] Existing Instance default_globals.

(** A span started by [ex_tagged]: the tag ["team"] is applied, the tag
    ["env"] of the tracer gives way to [config.env]. *)
Lemma start_span_applies_tracer_tags_witness :
  ∃ span self' s,
    Tracer.start_span (42, 7) "web.request" None None None None true ex_tagged
    = Ok span self'
    ∧ Tracer.heap_ self' !! span = Some s
    ∧ Span.meta s !! "team"%string = Some "core"%string
    ∧ Span.meta s !! "env"%string = Some "prod"%string.
Proof.
  destruct (start_span_applies_tracer_tags (42, 7) "web.request" None None None None
              true ex_tagged)
    as (span & self' & s & Hr & Hs & Htags & Henv).
  - left. reflexivity.
  - exists span, self', s. split_and!; try done.
    + apply Htags; [vm_compute; reflexivity|intros [=]|intros [=]].
    + by apply Henv.
Defined.

End tags_examples.

(** ** Starlette integration *)

Section starlette.
Import StarlettePatch.

Lemma patch_sets_flag (m : StarlettePatch.t) :
  getattr_datadog_patch (patch m) = true.
Proof.
  unfold patch. by destruct (getattr_datadog_patch m) eqn:Hm.
Qed.

Lemma run_call_patched (unwrap : func -> func) (c : call) (m : StarlettePatch.t) :
  getattr_datadog_patch m = true → run_call unwrap c m = m.
Proof. intros Hm. destruct c; simpl; unfold patch, unpatch; by rewrite Hm. Qed.

(** Once [patch()] has run, no sequence of [patch()] and [unpatch()] calls
    changes anything: the flag stays set and [Starlette.__init__] stays bound
    to the same function. In particular a second [patch()] does not wrap
    again, and [unpatch()] (whose guard returns when the flag is set) never
    removes the wrapper. On a module whose flag is not set, [patch()] wraps
    the function once. *)
Theorem patch_is_final (unwrap : func -> func) (calls : list call) (m : StarlettePatch.t) :
  _datadog_patch (patch m) = Some true
  ∧ patch (patch m) = patch m
  ∧ unpatch unwrap (patch m) = patch m
  ∧ run unwrap calls (patch m) = patch m
  ∧ (getattr_datadog_patch m = false → init (patch m) = FunctionWrapper (init m)).
Proof.
  pose proof (patch_sets_flag m) as Hp. split_and!.
  - by destruct m as [[[]|] f].
  - apply (run_call_patched unwrap Patch _ Hp).
  - apply (run_call_patched unwrap Unpatch _ Hp).
  - unfold run. induction calls as [|c calls IH]; [done|]. simpl.
    by rewrite (run_call_patched unwrap c _ Hp).
  - intros Hm. unfold patch. by rewrite Hm.
Qed.

(** One call of the wrapper: without a [middleware] keyword the wrapped
    function receives a new list holding [TraceMiddleware] only, and no
    existing object is touched; with a list it receives the caller's own list
    object, into which [TraceMiddleware] was inserted in front, under
    unchanged keywords; with an object that has no [insert] ([None], a tuple)
    the call raises [AttributeError] before the wrapped function runs. *)
Theorem traced_init_middleware_argument
    (wrapped : list nat -> gmap string nat -> gmap nat object -> outcome)
    (args : list nat) (kwargs : gmap string nat) (st : gmap nat object) :
  match kwargs !! "middleware"%string with
  | None =>
      st !! fresh (dom st) = None
      ∧ traced_init wrapped args kwargs st
        = wrapped args (<["middleware"%string := fresh (dom st)]> kwargs)
            (<[fresh (dom st) := PyList [TraceMiddleware]]> st)
  | Some r =>
      match st !! r with
      | Some (PyList items) =>
          traced_init wrapped args kwargs st
          = wrapped args kwargs (<[r := PyList (TraceMiddleware :: items)]> st)
      | _ => traced_init wrapped args kwargs st = Raised AttributeError st
      end
  end.
Proof.
  unfold traced_init. destruct (kwargs !! "middleware"%string) as [r|] eqn:Hk.
  - destruct (st !! r) as [[items|]|] eqn:Hr; try done.
    by rewrite insert_delete_id.
  - split; [apply not_elem_of_dom, is_fresh|].
    rewrite lookup_insert_eq. by rewrite insert_insert_eq.
Qed.

Lemma traced_init_list (wrapped : list nat -> gmap string nat -> gmap nat object -> outcome)
    (args : list nat) (kwargs : gmap string nat) (r : nat) (items : list middleware)
    (st : gmap nat object) :
  kwargs !! "middleware"%string = Some r →
  st !! r = Some (PyList items) →
  traced_init wrapped args kwargs st
  = wrapped args kwargs (<[r := PyList (TraceMiddleware :: items)]> st).
Proof.
  intros Hk Hr. unfold traced_init. rewrite Hk, Hr. by rewrite insert_delete_id.
Qed.

(** Applications constructed one after the other with the same list object
    as [middleware] share it: each construction inserts one more
    [TraceMiddleware] into the caller's list, so after [n] constructions the
    list starts with [n] of them (provided the wrapped [__init__] returns and
    leaves the list alone). *)
Theorem traced_init_accumulates
    (wrapped : list nat -> gmap string nat -> gmap nat object -> outcome)
    (args : list nat) (kwargs : gmap string nat) (r : nat) (items : list middleware)
    (n : nat) (st : gmap nat object) :
  kwargs !! "middleware"%string = Some r →
  st !! r = Some (PyList items) →
  (∀ a k st0, ∃ st1, wrapped a k st0 = Returned st1 ∧ st1 !! r = st0 !! r) →
  ∃ st',
    construct wrapped n args kwargs st = Returned st'
    ∧ st' !! r = Some (PyList (replicate n TraceMiddleware ++ items)).
Proof.
  intros Hk Hr Hw. revert st items Hr.
  induction n as [|n IH]; intros st items Hr; simpl.
  - by exists st.
  - rewrite (traced_init_list wrapped args kwargs r items st Hk Hr).
    destruct (Hw args kwargs (<[r := PyList (TraceMiddleware :: items)]> st))
      as (st1 & -> & H1).
    rewrite lookup_insert_eq in H1.
    destruct (IH st1 (TraceMiddleware :: items) H1) as (st' & Hst' & Hl).
    exists st'. split; [done|]. rewrite Hl. f_equal. f_equal.
    change (TraceMiddleware :: replicate n TraceMiddleware ++ items)
      with (replicate (S n) TraceMiddleware ++ items).
    by rewrite replicate_S_end, <- app_assoc.
Qed.

(** Two applications constructed with the same list of one user middleware. *)
Lemma traced_init_accumulates_witness :
  ∃ st',
    construct (fun _ _ st => Returned st) 2 [] {[ "middleware"%string := 0%nat ]}
      {[ 0%nat := PyList [UserMiddleware 1] ]}
    = Returned st'
    ∧ st' !! 0%nat = Some (PyList [TraceMiddleware; TraceMiddleware; UserMiddleware 1]).
Proof.
  apply (traced_init_accumulates (fun _ _ st => Returned st) []
           {[ "middleware"%string := 0%nat ]} 0%nat [UserMiddleware 1] 2
           {[ 0%nat := PyList [UserMiddleware 1] ]}).
  - reflexivity.
  - reflexivity.
  - intros a k st0. by exists st0.
Defined.

End starlette.
